(** * Bigram ranker: [project3/node/count.py]

    A shallow embedding of the script and the properties its specification
    states about it.  The script reads the file [result], builds a dict
    from bigram keys to counts, sorts the dict's items by count, and
    prints the total, the most common bigram(s) and the bigrams needed to
    reach 10% of the total.

    The script is Python 2 (it uses the [print] statement):
    - integers are unbounded ([int] promotes to [long]): [Z];
    - [num * 0.1] and [total -= count] are IEEE 754 binary64 operations
      on the count converted to a double: [spec_float] at precision 53;
    - uncaught exceptions end the run: a result type carrying the
      exception, and the lines printed before it. *)

From Stdlib Require Import ZArith List Ascii String DecimalString Permutation Sorted Lia.
From Stdlib Require Import Floats.SpecFloat DecimalPos.
From stdpp Require Import gmap strings list fin_maps sorting.

Local Open Scope string_scope.
Local Open Scope list_scope.
Local Open Scope Z_scope.

(** ** Exceptions and the two effect layers *)

(** The exceptions the script can raise on a readable file. *)
Inductive exn : Set :=
| IndexError      (* [line[2]] or [sorted_data[0]] out of range *)
| ValueError      (* [int] of a token that is no integer literal *)
| OverflowError.  (* [long] too large to convert to [float] *)

Inductive res (A : Type) : Type :=
| Ok (a : A)
| Raise (e : exn).
Arguments Ok {A} a.
Arguments Raise {A} e.

#[export] Instance res_ret : MRet res := fun _ a => Ok a.
#[export] Instance res_bind : MBind res := fun _ _ f m =>
  match m with
  | Ok a => f a
  | Raise e => Raise e
  end.
#[export] Instance res_throw : MThrow exn res := fun _ e => Raise e.

(** A computation that prints: the lines written to standard output, in
    order, and how the computation ended. *)
Record io (A : Type) : Type := IO { stdout : list string; outcome : res A }.
Arguments IO {A} stdout outcome.
Arguments stdout {A} _.
Arguments outcome {A} _.

#[export] Instance io_ret : MRet io := fun _ a => IO [] (Ok a).
#[export] Instance io_bind : MBind io := fun _ _ f m =>
  match outcome m with
  | Ok a => IO (stdout m ++ stdout (f a)) (outcome (f a))
  | Raise e => IO (stdout m) (Raise e)
  end.

(** A computation that prints nothing. *)
Definition lift {A} (r : res A) : io A := IO [] r.
(** The [print] statement, one line of output. *)
Definition print (s : string) : io unit := IO [s] (Ok tt).

(** ** Python built-ins used by the script *)

Module PyStr.

(** The bytes [str.split()] treats as whitespace: TAB, LF, VT, FF, CR
    and space. *)
Definition is_space (c : ascii) : bool :=
  let n := nat_of_ascii c in
  ((9 <=? n)%nat && (n <=? 13)%nat) || (n =? 32)%nat.

Definition snoc (s : string) (c : ascii) : string := s +:+ String c "".

(** [s.split()]: maximal runs of non-whitespace bytes.  [cur] is the
    token being read; it is empty exactly between tokens. *)
Fixpoint split_from (cur : string) (s : string) : list string :=
  match s with
  | EmptyString => if decide (cur = "") then [] else [cur]
  | String c s' =>
      if is_space c
      then (if decide (cur = "") then split_from "" s'
            else cur :: split_from "" s')
      else split_from (snoc cur c) s'
  end.

Definition split (s : string) : list string := split_from "" s.

(** [for line in f]: the file's lines, each with its newline; a last
    line without newline is a line too. *)
Fixpoint lines_from (cur : string) (s : string) : list string :=
  match s with
  | EmptyString => if decide (cur = "") then [] else [cur]
  | String c s' =>
      if decide (c = "010"%char)
      then snoc cur c :: lines_from "" s'
      else lines_from (snoc cur c) s'
  end.

Definition lines (s : string) : list string := lines_from "" s.

Definition is_digit (c : ascii) : bool :=
  let n := nat_of_ascii c in (48 <=? n)%nat && (n <=? 57)%nat.

Definition digit_val (c : ascii) : Z := Z.of_nat (nat_of_ascii c) - 48.

(** Base-10 digits, most significant first, continuing from [acc]. *)
Fixpoint digits (acc : Z) (s : string) : option Z :=
  match s with
  | EmptyString => Some acc
  | String c s' =>
      if is_digit c then digits (10 * acc + digit_val c) s' else None
  end.

Definition unsigned (s : string) : option Z :=
  match s with
  | EmptyString => None
  | _ => digits 0 s
  end.

(** [int(tok)] on a token of [split], which holds no whitespace: an
    optional sign and at least one decimal digit, nothing else. *)
Definition int (tok : string) : res Z :=
  let r :=
    match tok with
    | String "+" s => unsigned s
    | String "-" s => Z.opp <$> unsigned s
    | _ => unsigned tok
    end in
  match r with
  | Some n => mret n
  | None => mthrow ValueError
  end.

(** [str(n)] of an [int] or [long]. *)
Definition str (n : Z) : string := NilZero.string_of_int (Z.to_int n).

(** [xs[i]] *)
Definition getitem {A} (xs : list A) (i : nat) : res A :=
  match xs !! i with
  | Some x => mret x
  | None => mthrow IndexError
  end.

(** [range(n)] *)
Definition range (n : nat) : list nat := seq 0 n.

End PyStr.

(** Python floats: IEEE 754 binary64. *)
Module PyFloat.

Definition prec : Z := 53.
Definition emax : Z := 1024.

(** [float(n)] as the arithmetic operators apply it to an integer
    operand: round to nearest, ties to even; [OverflowError] where the
    rounded magnitude would reach [2^1024]. *)
Definition of_int (n : Z) : res spec_float :=
  match binary_normalize prec emax n 0 false with
  | S754_infinity _ => mthrow OverflowError
  | x => mret x
  end.

(** The literal [0.1]: the double nearest to one tenth. *)
Definition one_tenth : spec_float := S754_finite false 7205759403792794 (-56).

Definition mul (x y : spec_float) : spec_float := SFmul prec emax x y.
Definition sub (x y : spec_float) : spec_float := SFsub prec emax x y.

(** [x < 0] *)
Definition ltb0 (x : spec_float) : bool := SFltb x (S754_zero false).

End PyFloat.

(** ** The dict

    The script uses three dict operations: the empty dict, item
    assignment and [items()].  In Python 2 the order of [items()] is the
    order of the hash table's slots, which the language leaves
    unspecified; it is a function of the dict object, and the only thing
    the script may rely on is that [items()] lists every entry once. *)
Class PyDict (D : Type) : Type := {
  dict_new : D;
  dict_setitem : string -> Z -> D -> D;
  dict_items : D -> list (string * Z);
  (** the mapping a dict object holds *)
  dict_map : D -> gmap string Z;
  dict_map_new : dict_map dict_new = ∅;
  dict_map_setitem k v d :
    dict_map (dict_setitem k v d) = <[k:=v]> (dict_map d);
  dict_items_perm d : dict_items d ≡ₚ map_to_list (dict_map d)
}.

(** A dict whose [items()] come in the order of the keys' encodings. *)
#[export] Instance gmap_dict : PyDict (gmap string Z) := {|
  dict_new := ∅;
  dict_setitem k v d := <[k:=v]> d;
  dict_items d := map_to_list d;
  dict_map d := d;
  dict_map_new := eq_refl;
  dict_map_setitem _ _ _ := eq_refl;
  dict_items_perm _ := reflexivity _
|}.

(** ** The script *)

Import PyStr.

Section Load.
Context {D : Type} {dict : PyDict D}.

(** Lines 7-8, the body of the reading loop.  Python evaluates the
    right-hand side [int(line[2])] before the subscript of the target. *)
Definition load_line (data : D) (line : string) : res D :=
  let line := split line in
  n ← (t2 ← getitem line 2; int t2);
  t0 ← getitem line 0;
  t1 ← getitem line 1;
  mret (dict_setitem (t0 +:+ " " +:+ t1) n data).

(** Lines 6-8: one [load_line] per line of the file. *)
Fixpoint load_from (data : D) (f : list string) : res D :=
  match f with
  | [] => mret data
  | line :: f' => data' ← load_line data line; load_from data' f'
  end.

(** Lines 5-8: [data = {}] and the reading loop. *)
Definition load (f : list string) : res D := load_from dict_new f.
End Load.

(** [sorted(items, key=operator.itemgetter(1))]: ascending by count and
    stable, so an entry goes before the entries of equal count that
    followed it in [items]. *)
Fixpoint insert_by_count (x : string * Z) (l : list (string * Z))
  : list (string * Z) :=
  match l with
  | [] => [x]
  | y :: l' =>
      if x.2 <=? y.2 then x :: y :: l' else y :: insert_by_count x l'
  end.

Fixpoint sorted (items : list (string * Z)) : list (string * Z) :=
  match items with
  | [] => []
  | x :: items' => insert_by_count x (sorted items')
  end.

(** Line 10: [sorted_data = list(reversed(sorted(data.items(), ...)))] *)
Definition rank {D : Type} {dict : PyDict D} (data : D) : list (string * Z) :=
  reverse (sorted (dict_items data)).

(** A [for i in ...] loop over a state [S]; the body says whether to go
    on or to [break]. *)
Inductive control : Set := Continue | Break.

Fixpoint for_in {S} (idx : list nat) (body : nat -> S -> io (control * S))
    (s : S) : io S :=
  match idx with
  | [] => mret s
  | i :: idx' =>
      '(c, s') ← body i s;
      match c with
      | Continue => for_in idx' body s'
      | Break => mret s'
      end
  end.

(** Lines 12-14 *)
Definition num_loop (sorted_data : list (string * Z)) : io Z :=
  for_in (range (length sorted_data))
    (fun i num =>
       e ← lift (getitem sorted_data i);
       mret (Continue, num + e.2))
    0.

(** Lines 18-21 *)
Definition most_common (sorted_data : list (string * Z)) : io unit :=
  max_num ← lift (e ← getitem sorted_data 0; mret e.2);
  for_in (range (length sorted_data))
    (fun i _ =>
       e ← lift (getitem sorted_data i);
       if e.2 =? max_num
       then print e.1;; mret (Continue, tt)
       else mret (Continue, tt))
    tt.

(** Lines 24-27, from a threshold [total] *)
Definition top10_loop (sorted_data : list (string * Z)) (total : spec_float)
  : io spec_float :=
  for_in (range (length sorted_data))
    (fun i total =>
       e ← lift (getitem sorted_data i);
       print e.1;;
       c ← lift (PyFloat.of_int e.2);
       let total := PyFloat.sub total c in
       if PyFloat.ltb0 total
       then mret (Break, total)
       else mret (Continue, total))
    total.

(** Lines 23-27 *)
Definition top10 (sorted_data : list (string * Z)) (num : Z) : io unit :=
  total ← lift (x ← PyFloat.of_int num; mret (PyFloat.mul x PyFloat.one_tenth));
  top10_loop sorted_data total;;
  mret tt.

(** Lines 12-27 *)
Definition report (sorted_data : list (string * Z)) : io unit :=
  num ← num_loop sorted_data;
  print ("the total number of bigrams:  " +:+ str num);;
  print "the most common bigram: ";;
  most_common sorted_data;;
  print "the number of bigrams required to add up to 10% of all bigrams";;
  top10 sorted_data num.

(** The whole script, on the contents of the file [result]. *)
Definition main {D : Type} {dict : PyDict D} (result : string) : io unit :=
  data ← lift (load (lines result));
  report (rank data).

(** * Definitions used to state and prove the properties *)

(** The loop of [for_in] when the body reads entry [i] and nothing else
    of the list. *)
Fixpoint for_each {S} (l : list (string * Z))
    (g : string * Z -> S -> io (control * S)) (s : S) : io S :=
  match l with
  | [] => mret s
  | e :: l' =>
      '(c, s') ← g e s;
      match c with
      | Continue => for_each l' g s'
      | Break => mret s'
      end
  end.

(** The sum of the counts of a sequence of entries. *)
Fixpoint counts_sum (l : list (string * Z)) : Z :=
  match l with
  | [] => 0
  | e :: l' => e.2 + counts_sum l'
  end.

(** The sum of the counts held in a table. *)
Definition table_sum (m : gmap string Z) : Z :=
  map_fold (fun _ c acc => c + acc) 0 m.

(** Ascending and descending order of counts. *)
Definition count_le (a b : string * Z) : Prop := a.2 <= b.2.

Definition count_ge (a b : string * Z) : Prop := b.2 <= a.2.

(** The keys of the entries of [l] whose count is [max_num], in order. *)
Definition keys_with_count (max_num : Z) (l : list (string * Z)) : list string :=
  (filter (fun e => e.2 = max_num) l).*1.

Definition total_line (num : Z) : string :=
  "the total number of bigrams:  " +:+ str num.

Definition most_common_header : string := "the most common bigram: ".

Definition top10_header : string :=
  "the number of bigrams required to add up to 10% of all bigrams".

(** What one line contributes: its bigram key and count. *)
Definition record_of (line : string) : res (string * Z) :=
  match split line with
  | t0 :: t1 :: t2 :: _ => n ← int t2; mret (t0 +:+ " " +:+ t1, n)
  | _ => mthrow IndexError
  end.

(** The records of the lines, up to the first line that has none. *)
Fixpoint records (f : list string) : res (list (string * Z)) :=
  match f with
  | [] => mret []
  | line :: f' => r ← record_of line; recs ← records f'; mret (r :: recs)
  end.

(** The count written last for [k] in a sequence of records. *)
Fixpoint last_write (k : string) (recs : list (string * Z)) : option Z :=
  match recs with
  | [] => None
  | r :: recs' =>
      match last_write k recs' with
      | Some c => Some c
      | None => if decide (r.1 = k) then Some r.2 else None
      end
  end.

(** The table after storing the records in order. *)
Definition store_all (m : gmap string Z) (recs : list (string * Z)) : gmap string Z :=
  foldl (fun m r => <[r.1:=r.2]> m) m recs.

(** A line is malformed when it has fewer than three tokens or its third
    token is no integer literal. *)
Definition parses (tok : string) : Prop := exists n, int tok = Ok n.

Definition malformed (line : string) : Prop :=
  (length (split line) < 3)%nat \/
  exists t2, split line !! 2%nat = Some t2 /\ ~ parses t2.

(** The exception a malformed line raises. *)
Definition line_error (line : string) : exn :=
  if (length (split line) <? 3)%nat then IndexError else ValueError.

(** The line terminator. *)
Definition LF : string := String "010"%char "".

(** A string of [n] zeros, to write large counts. *)
Fixpoint zeros (n : nat) : string :=
  match n with
  | O => ""
  | S n' => String "0" (zeros n')
  end.

(** What the specification says of the section: the keys emitted are those
    of the first [n] entries, where the sum of the first [n] counts is the
    smallest prefix sum that is at least a tenth of the total. *)
Definition smallest_reaching_prefix (sd : list (string * Z)) (n : nat) : Prop :=
  (1 <= n <= length sd)%nat /\
  counts_sum sd <= 10 * counts_sum (take n sd) /\
  forall j, (1 <= j <= length sd)%nat ->
    counts_sum sd <= 10 * counts_sum (take j sd) ->
    counts_sum (take n sd) <= counts_sum (take j sd).

(** Ten bigrams of count 1: the first reaches a tenth of the total, and the
    section prints two. *)
Definition ten_ones : string :=
  "a b 1" +:+ LF +:+ "b c 1" +:+ LF +:+ "c d 1" +:+ LF +:+ "d e 1" +:+ LF +:+
  "e f 1" +:+ LF +:+ "f g 1" +:+ LF +:+ "g h 1" +:+ LF +:+ "h i 1" +:+ LF +:+
  "i j 1" +:+ LF +:+ "j k 1" +:+ LF.

Definition ten_ones_table : gmap string Z :=
  list_to_map [("a b", 1); ("b c", 1); ("c d", 1); ("d e", 1); ("e f", 1);
               ("f g", 1); ("g h", 1); ("h i", 1); ("i j", 1); ("j k", 1)].

(** A count of 310 digits: the total does not convert to a float. *)
Definition huge_count : string := "a b 1" +:+ zeros 309 +:+ LF.

(** The running threshold after the counts of [l] have been subtracted
    from [total], one by one. *)
Fixpoint threshold_after (total : spec_float) (l : list (string * Z))
  : res spec_float :=
  match l with
  | [] => mret total
  | e :: l' => c ← PyFloat.of_int e.2; threshold_after (PyFloat.sub total c) l'
  end.

(** Doubles read as integers, for the arithmetic of the last loop. *)
Module Double.
Import PyFloat.

(** The second half of [binary_round_aux]: renormalising the rounded
    mantissa. *)
Definition round_tail (sx : bool) (m e : Z) : spec_float :=
  let '(mrs, e') := shr_fexp prec emax m e loc_Exact in
  match shr_m mrs with
  | Z0 => S754_zero sx
  | Zpos m' => if e' <=? emax - prec then S754_finite sx m' e' else S754_infinity sx
  | Zneg _ => S754_nan
  end.

(** Every finite double is a multiple of [2^-1074]: [scaled x] is [x]
    in that unit, [pw e] is [2^e] and [one] is the double 1.0. *)
Definition pw (e : Z) : Z := 2 ^ (e + 1074).

Definition one : Z := pw 0.

Definition scaled (x : spec_float) : Z :=
  match x with
  | S754_finite s m e => cond_Zopp s (Zpos m * pw e)
  | _ => 0
  end.

(** Zero or a positive double of the format. *)
Definition nonneg_double (x : spec_float) : Prop :=
  match x with
  | S754_zero _ => True
  | S754_finite false m e =>
      fexp prec emax (Zpos (digits2_pos m) + e) = e /\ e <= 971
  | _ => False
  end.

End Double.

(** ** Tokens, lines and magnitudes *)

(** A string without whitespace, as the tokens of [split] are. *)
Fixpoint no_space (s : string) : Prop :=
  match s with
  | EmptyString => True
  | String c s' => is_space c = false /\ no_space s'
  end.

(** A string of whitespace only. *)
Fixpoint all_space (s : string) : Prop :=
  match s with
  | EmptyString => True
  | String c s' => is_space c = true /\ all_space s'
  end.

(** Integers that convert to a float whatever their digits: magnitudes
    below [2^1023]. *)
Definition float_safe (n : Z) : Prop := Z.abs n < 2 ^ 1023.

(** A dict whose [items()] come in the opposite order. *)
Definition reversed_dict : PyDict (gmap string Z) := {|
  dict_new := ∅;
  dict_setitem k v d := <[k:=v]> d;
  dict_items d := reverse (map_to_list d);
  dict_map d := d;
  dict_map_new := eq_refl;
  dict_map_setitem _ _ _ := eq_refl;
  dict_items_perm d := reverse_Permutation _
|}.

(** The lines of a file put together again. *)
Fixpoint join (f : list string) : string :=
  match f with
  | [] => ""
  | line :: f' => line +:+ join f'
  end.

(** A string without a newline. *)
Fixpoint no_newline (s : string) : Prop :=
  match s with
  | EmptyString => True
  | String c s' => c <> "010"%char /\ no_newline s'
  end.

(** A line that ends in its newline, the only one it holds; and the last
    line of a file, which may lack the newline but is not empty then. *)
Definition is_full_line (l : string) : Prop :=
  exists body, no_newline body /\ l = body +:+ LF.

Definition is_last_line (l : string) : Prop :=
  is_full_line l \/ (l <> "" /\ no_newline l).

(** A file cut after every newline and nowhere else. *)
Fixpoint well_cut (f : list string) : Prop :=
  match f with
  | [] => True
  | l :: f' =>
      match f' with
      | [] => is_last_line l
      | _ :: _ => is_full_line l /\ well_cut f'
      end
  end.

(** * Properties *)

(** ** The script on small inputs *)

Example split_example : split ("  the   cat 5 x " +:+ LF) = ["the"; "cat"; "5"; "x"].
Proof. reflexivity. Qed.

Example int_examples :
  int "+007" = Ok 7 /\ int "-12" = Ok (-12) /\ int "12L" = Raise ValueError /\
  int "-" = Raise ValueError /\ int "1e3" = Raise ValueError.
Proof. repeat split. Qed.

(** The example of the specification: total 11, [the cat] is the most
    common bigram and alone exceeds the threshold 1.1. *)
Example main_example :
  main (D:=gmap string Z)
    ("the cat 5" +:+ LF +:+ "cat sat 3" +:+ LF +:+ "sat mat 3" +:+ LF)
  = IO ["the total number of bigrams:  11"; "the most common bigram: ";
        "the cat";
        "the number of bigrams required to add up to 10% of all bigrams";
        "the cat"] (Ok tt).
Proof. vm_compute. reflexivity. Qed.

(** ** Laws of the effect layers *)

Lemma io_eta {A} (m : io A) : IO (stdout m) (outcome m) = m.
Proof. by destruct m. Qed.

Lemma io_bind_ok {A B} (o : list string) (a : A) (f : A -> io B) :
  IO o (Ok a) ≫= f = IO (o ++ stdout (f a)) (outcome (f a)).
Proof. reflexivity. Qed.

Lemma io_bind_raise {A B} (o : list string) (e : exn) (f : A -> io B) :
  IO o (Raise e) ≫= f = IO o (Raise e).
Proof. reflexivity. Qed.

Lemma lift_ok_bind {A B} (a : A) (f : A -> io B) : lift (Ok a) ≫= f = f a.
Proof. unfold mbind, io_bind. cbn. apply io_eta. Qed.

Lemma mret_bind {A B} (a : A) (f : A -> io B) : mret a ≫= f = f a.
Proof. apply lift_ok_bind. Qed.

Lemma print_bind {B} (s : string) (f : unit -> io B) :
  print s ≫= f = IO (s :: stdout (f tt)) (outcome (f tt)).
Proof. reflexivity. Qed.

Lemma print_mret_bind {A B} (s : string) (a : A) (f : A -> io B) :
  (print s;; mret a) ≫= f = IO (s :: stdout (f a)) (outcome (f a)).
Proof. reflexivity. Qed.

Lemma stdout_bind {A B} (m : io A) (f : A -> io B) :
  stdout (m ≫= f) =
  match outcome m with
  | Ok a => stdout m ++ stdout (f a)
  | Raise _ => stdout m
  end.
Proof. unfold mbind, io_bind. by destruct (outcome m). Qed.

Lemma outcome_bind {A B} (m : io A) (f : A -> io B) :
  outcome (m ≫= f) =
  match outcome m with
  | Ok a => outcome (f a)
  | Raise e => Raise e
  end.
Proof. unfold mbind, io_bind. by destruct (outcome m). Qed.

Lemma getitem_Ok {A} (xs : list A) (i : nat) (x : A) :
  getitem xs i = Ok x <-> xs !! i = Some x.
Proof.
  unfold getitem. destruct (xs !! i); split; intros E;
    (discriminate E || by inversion E).
Qed.

Lemma getitem_middle {A} (pre : list A) (x : A) (post : list A) :
  getitem (pre ++ x :: post) (length pre) = Ok x.
Proof. apply getitem_Ok, list_lookup_middle. reflexivity. Qed.

(** ** Loops over [range(len(sorted_data))] as recursion on the list *)

Lemma for_in_seq {S} (g : string * Z -> S -> io (control * S))
    (pre l : list (string * Z)) (s : S) :
  for_in (seq (length pre) (length l))
    (fun i s => e ← lift (getitem (pre ++ l) i); g e s) s
  = for_each l g s.
Proof.
  revert pre s. induction l as [|e l IH]; intros pre s; [reflexivity|].
  cbn [length seq for_in for_each].
  rewrite getitem_middle, lift_ok_bind.
  destruct (g e s) as [o [[[] s']|err]]; rewrite ?io_bind_ok, ?io_bind_raise;
    try reflexivity.
  replace (pre ++ e :: l) with ((pre ++ [e]) ++ l) by (by rewrite <- app_assoc).
  replace (Datatypes.S (length pre)) with (length (pre ++ [e]))
    by (rewrite length_app; simpl; lia).
  by rewrite IH.
Qed.

Lemma for_in_range {S} (g : string * Z -> S -> io (control * S))
    (l : list (string * Z)) (s : S) :
  for_in (range (length l)) (fun i s => e ← lift (getitem l i); g e s) s
  = for_each l g s.
Proof. apply (for_in_seq g [] l s). Qed.

(** ** Counts, their sum and their order *)

#[export] Instance count_le_trans : Transitive count_le.
Proof. unfold count_le. intros a b c ??. lia. Qed.

#[export] Instance count_ge_trans : Transitive count_ge.
Proof. unfold count_ge. intros a b c ??. lia. Qed.

Lemma counts_sum_app l1 l2 : counts_sum (l1 ++ l2) = counts_sum l1 + counts_sum l2.
Proof. induction l1 as [|e l1 IH]; cbn; [done | rewrite IH; lia]. Qed.

Lemma counts_sum_perm l1 l2 : l1 ≡ₚ l2 -> counts_sum l1 = counts_sum l2.
Proof. induction 1; cbn; lia. Qed.

Lemma table_sum_to_list m : table_sum m = counts_sum (map_to_list m).
Proof.
  unfold table_sum. rewrite map_fold_foldr.
  induction (map_to_list m) as [|[k c] l IH]; cbn; [done | by rewrite IH].
Qed.

Lemma table_sum_empty : table_sum ∅ = 0.
Proof. by rewrite table_sum_to_list, map_to_list_empty. Qed.

Lemma table_sum_insert_fresh m k c :
  m !! k = None -> table_sum (<[k:=c]> m) = c + table_sum m.
Proof.
  intros Hk. rewrite !table_sum_to_list.
  by rewrite (counts_sum_perm _ _ (map_to_list_insert m k c Hk)).
Qed.

Lemma table_sum_insert m k c :
  table_sum (<[k:=c]> m) = c + table_sum (delete k m).
Proof.
  rewrite <- insert_delete_eq. apply table_sum_insert_fresh, lookup_delete_eq.
Qed.

Lemma insert_by_count_perm x l : insert_by_count x l ≡ₚ x :: l.
Proof.
  induction l as [|y l IH]; cbn; [done|].
  destruct (x.2 <=? y.2); [done|]. rewrite IH. apply perm_swap.
Qed.

Lemma sorted_perm l : sorted l ≡ₚ l.
Proof.
  induction l as [|x l IH]; cbn; [done|].
  by rewrite insert_by_count_perm, IH.
Qed.

Lemma insert_by_count_Sorted x l :
  Sorted count_le l -> Sorted count_le (insert_by_count x l).
Proof.
  induction 1 as [|y l Hl IH Hy]; cbn.
  - by repeat constructor.
  - destruct (Z.leb_spec x.2 y.2) as [Hxy|Hxy].
    + by repeat constructor.
    + constructor; [done|].
      destruct Hy as [|z l' Hz]; cbn.
      * constructor. unfold count_le. lia.
      * destruct (x.2 <=? z.2); constructor; [unfold count_le; lia | done].
Qed.

Lemma sorted_Sorted l : Sorted count_le (sorted l).
Proof.
  induction l; cbn; [constructor | by apply insert_by_count_Sorted].
Qed.

Section Rank.
Context {D : Type} {dict : PyDict D}.

Lemma rank_perm (data : D) : rank data ≡ₚ map_to_list (dict_map data).
Proof.
  unfold rank. by rewrite reverse_Permutation, sorted_perm, dict_items_perm.
Qed.

Lemma rank_descending (data : D) : StronglySorted count_ge (rank data).
Proof.
  apply Sorted_StronglySorted; [apply _|].
  apply (Sorted_reverse count_le), sorted_Sorted.
Qed.

Lemma elem_of_rank (data : D) k c :
  (k, c) ∈ rank data <-> dict_map data !! k = Some c.
Proof. by rewrite rank_perm, elem_of_map_to_list. Qed.

Lemma rank_NoDup_keys (data : D) : NoDup (rank data).*1.
Proof. rewrite rank_perm. apply NoDup_fst_map_to_list. Qed.

Lemma rank_sum (data : D) : counts_sum (rank data) = table_sum (dict_map data).
Proof. rewrite table_sum_to_list. apply counts_sum_perm, rank_perm. Qed.

Lemma rank_nil (data : D) : rank data = [] <-> dict_map data = ∅.
Proof.
  rewrite <- map_to_list_empty_iff. split; intros E.
  - apply Permutation_nil_r. by rewrite <- rank_perm, E.
  - apply Permutation_nil_r. by rewrite rank_perm, E.
Qed.
End Rank.

(** Whatever order [items()] has, the ranked sequences of two dicts that
    hold the same mapping have the same entries and the same sequence of
    counts: only entries of equal count can trade places. *)
Lemma rank_any_order {D1 D2 : Type} {dict1 : PyDict D1} {dict2 : PyDict D2}
    (d1 : D1) (d2 : D2) :
  dict_map d1 = dict_map d2 ->
  rank d1 ≡ₚ rank d2 /\ (rank d1).*2 = (rank d2).*2.
Proof.
  intros Hm.
  assert (Hp : rank d1 ≡ₚ rank d2) by (by rewrite !rank_perm, Hm).
  split; [done|].
  apply (StronglySorted_unique_strong (fun a b : Z => b <= a)).
  - intros; lia.
  - apply (StronglySorted_fmap snd count_ge); [done | apply rank_descending].
  - apply (StronglySorted_fmap snd count_ge); [done | apply rank_descending].
  - by apply fmap_Permutation.
Qed.

(** ** The three loops of [report] *)

Lemma num_loop_sum (sorted_data : list (string * Z)) :
  num_loop sorted_data = IO [] (Ok (counts_sum sorted_data)).
Proof.
  unfold num_loop. rewrite for_in_range.
  change (counts_sum sorted_data) with (0 + counts_sum sorted_data) at 1.
  generalize 0 as num.
  induction sorted_data as [|e l IH]; intros num; cbn [for_each counts_sum].
  - by rewrite Z.add_0_r.
  - rewrite mret_bind, IH. do 2 f_equal. lia.
Qed.

Lemma most_common_nil : most_common [] = IO [] (Raise IndexError).
Proof. reflexivity. Qed.

Lemma most_common_cons (e : string * Z) (l : list (string * Z)) :
  most_common (e :: l) = IO (keys_with_count e.2 (e :: l)) (Ok tt).
Proof.
  unfold most_common.
  replace (lift (e0 ← getitem (e :: l) 0; mret e0.2)) with (lift (Ok e.2))
    by reflexivity.
  rewrite lift_ok_bind, for_in_range.
  generalize (e :: l) as sd. generalize e.2 as max_num. clear e l.
  intros max_num sd. induction sd as [|e l IH]; [reflexivity|].
  cbn [for_each]. unfold keys_with_count in *. rewrite filter_cons.
  destruct (Z.eqb_spec e.2 max_num) as [E|E].
  - rewrite decide_True by done. rewrite print_mret_bind, IH. reflexivity.
  - rewrite decide_False by done. by rewrite mret_bind, IH.
Qed.

(** The body of the last loop, and the loop unfolded once. *)
Lemma top10_body (e : string * Z) (total : spec_float) :
  (print e.1;;
   c ← lift (PyFloat.of_int e.2);
   let total := PyFloat.sub total c in
   if PyFloat.ltb0 total
   then mret (Break, total)
   else mret (Continue, total))
  = match PyFloat.of_int e.2 with
    | Raise err => IO [e.1] (Raise err)
    | Ok c =>
        let total' := PyFloat.sub total c in
        IO [e.1] (Ok (if PyFloat.ltb0 total' then Break else Continue, total'))
    end.
Proof.
  destruct (PyFloat.of_int e.2) as [c|err]; [|reflexivity].
  rewrite print_bind, lift_ok_bind. cbn zeta.
  by destruct (PyFloat.ltb0 _).
Qed.

Lemma top10_loop_nil (total : spec_float) : top10_loop [] total = IO [] (Ok total).
Proof. reflexivity. Qed.

Lemma top10_loop_cons (e : string * Z) (l : list (string * Z)) (total : spec_float) :
  top10_loop (e :: l) total =
  match PyFloat.of_int e.2 with
  | Raise err => IO [e.1] (Raise err)
  | Ok c =>
      let total' := PyFloat.sub total c in
      if PyFloat.ltb0 total' then IO [e.1] (Ok total')
      else IO (e.1 :: stdout (top10_loop l total')) (outcome (top10_loop l total'))
  end.
Proof.
  unfold top10_loop. rewrite !for_in_range. cbn [for_each].
  rewrite top10_body.
  destruct (PyFloat.of_int e.2) as [c|err]; [|reflexivity].
  cbn zeta. rewrite io_bind_ok.
  destruct (PyFloat.ltb0 _); rewrite ?for_in_range; reflexivity.
Qed.

(** ** [report] and [main], section by section *)

Lemma report_nil :
  report [] = IO [total_line 0; most_common_header] (Raise IndexError).
Proof. reflexivity. Qed.

Lemma report_cons (e : string * Z) (l : list (string * Z)) :
  let sd := e :: l in
  let num := counts_sum sd in
  report sd =
  IO (total_line num :: most_common_header :: keys_with_count e.2 sd
        ++ top10_header :: stdout (top10 sd num))
     (outcome (top10 sd num)).
Proof.
  intros sd num. subst sd num. unfold report.
  rewrite num_loop_sum, most_common_cons. reflexivity.
Qed.

Lemma main_load {D : Type} {dict : PyDict D} (result : string) :
  main (D:=D) result =
  match load (lines result) with
  | Ok data => report (rank data)
  | Raise e => IO [] (Raise e)
  end.
Proof.
  unfold main. destruct (load (lines result)); [|reflexivity].
  by rewrite lift_ok_bind.
Qed.

(** ** Reading the file *)

Lemma lookup_store_all m recs k :
  store_all m recs !! k =
  match last_write k recs with
  | Some c => Some c
  | None => m !! k
  end.
Proof.
  revert m. induction recs as [|[k' c'] recs IH]; intros m; cbn; [done|].
  rewrite IH. destruct (last_write k recs); [done|].
  cbn. rewrite lookup_insert. by destruct (decide (k' = k)).
Qed.

Section LoadFacts.
Context {D : Type} {dict : PyDict D}.

Lemma load_line_record (data : D) (line : string) :
  load_line data line = r ← record_of line; mret (dict_setitem r.1 r.2 data).
Proof.
  unfold load_line, record_of.
  destruct (split line) as [|t0 [|t1 [|t2 rest]]]; try reflexivity.
  cbn. by destruct (int t2).
Qed.

Lemma load_from_records (data : D) (f : list string) :
  match load_from data f with
  | Ok data' =>
      exists recs, records f = Ok recs /\
                   dict_map data' = store_all (dict_map data) recs
  | Raise e => records f = Raise e
  end.
Proof.
  revert data. induction f as [|line f IH]; intros data; cbn.
  { by exists []. }
  rewrite load_line_record. destruct (record_of line) as [r|e]; cbn; [|done].
  specialize (IH (dict_setitem r.1 r.2 data)).
  destruct (load_from _ f) as [data'|e].
  - destruct IH as (recs & -> & ->). exists (r :: recs). split; [done|].
    cbn. by rewrite dict_map_setitem.
  - by rewrite IH.
Qed.

Lemma load_records (f : list string) :
  match load (D:=D) f with
  | Ok data =>
      exists recs, records f = Ok recs /\ dict_map data = store_all ∅ recs
  | Raise e => records f = Raise e
  end.
Proof.
  unfold load. pose proof (load_from_records dict_new f) as Hl.
  destruct (load_from _ f); [|done].
  destruct Hl as (recs & ? & ->). exists recs. by rewrite dict_map_new.
Qed.
End LoadFacts.

Lemma report_total_line (sd : list (string * Z)) :
  exists rest, stdout (report sd) = total_line (counts_sum sd) :: rest.
Proof.
  destruct sd as [|e l].
  - rewrite report_nil. by eexists.
  - rewrite report_cons. by eexists.
Qed.

Lemma elem_of_keys_with_count (max_num : Z) (l : list (string * Z)) (k : string) :
  k ∈ keys_with_count max_num l <-> (k, max_num) ∈ l.
Proof.
  unfold keys_with_count. rewrite list_elem_of_fmap. split.
  - intros ([k' c] & -> & [E ?]%list_elem_of_filter). cbn in E. by subst.
  - intros Hin. exists (k, max_num). split; [done|].
    by apply list_elem_of_filter.
Qed.

Lemma keys_with_count_NoDup (max_num : Z) (l : list (string * Z)) :
  NoDup l.*1 -> NoDup (keys_with_count max_num l).
Proof.
  unfold keys_with_count. induction l as [|e l IH]; [constructor|].
  rewrite fmap_cons. intros [Hnotin Hl]%NoDup_cons. rewrite filter_cons.
  destruct (decide _); [|by auto].
  rewrite fmap_cons. apply NoDup_cons. split; [|by auto].
  intros Hin. apply Hnotin.
  apply list_elem_of_fmap in Hin as (e' & -> & [_ ?]%list_elem_of_filter).
  by apply list_elem_of_fmap_2.
Qed.

(** ** Malformed lines *)

Lemma int_cases (tok : string) : parses tok \/ int tok = Raise ValueError.
Proof.
  unfold parses, int.
  destruct (match tok with
            | String "+" s => unsigned s
            | String "-" s => Z.opp <$> unsigned s
            | _ => unsigned tok
            end); [left; by eexists | by right].
Qed.

Lemma record_of_cases (line : string) :
  (exists r, record_of line = Ok r /\ ~ malformed line) \/
  (record_of line = Raise (line_error line) /\ malformed line).
Proof.
  unfold record_of, malformed, line_error.
  destruct (split line) as [|t0 [|t1 [|t2 rest]]];
    try (right; split; [reflexivity | left; cbn; lia]).
  destruct (int_cases t2) as [[n Hn]| Hn].
  - left. rewrite Hn. eexists. split; [reflexivity|].
    intros [?|(t & [= <-] & Hp)]; [cbn in *; lia|]. apply Hp. by exists n.
  - right. rewrite Hn. split; [reflexivity|]. right. exists t2. split; [done|].
    intros [n Hp]. congruence.
Qed.

Lemma records_cases (f : list string) :
  (exists recs, records f = Ok recs /\ Forall (fun l => ~ malformed l) f) \/
  (exists pre line post,
      f = pre ++ line :: post /\ Forall (fun l => ~ malformed l) pre /\
      malformed line /\ records f = Raise (line_error line)).
Proof.
  induction f as [|line f IH]; cbn.
  { left. by exists []. }
  destruct (record_of_cases line) as [(r & -> & Hr)|[-> Hbad]].
  - destruct IH as [(recs & -> & Hf)|(pre & l & post & -> & Hpre & Hl & ->)].
    + left. eexists. split; [reflexivity | by constructor].
    + right. exists (line :: pre), l, post. repeat split; [by constructor|done].
  - right. by exists [], line, f.
Qed.

Lemma records_app_bad (pre : list string) (line : string) (post : list string) :
  Forall (fun l => ~ malformed l) pre -> malformed line ->
  records (pre ++ line :: post) = Raise (line_error line).
Proof.
  intros Hpre Hbad. induction Hpre as [|l pre Hl _ IH]; cbn.
  - destruct (record_of_cases line) as [(r & _ & Hr)|[-> _]]; [done | reflexivity].
  - destruct (record_of_cases l) as [(r & -> & _)|[_ ?]]; [|done].
    by rewrite IH.
Qed.

(** What [load_line] does with a line of at least three tokens. *)
Lemma load_line_tokens {D : Type} {dict : PyDict D}
    (data : D) (line t0 t1 t2 : string) (rest : list string) :
  split line = t0 :: t1 :: t2 :: rest ->
  load_line data line
    = (n ← int t2; mret (dict_setitem (t0 +:+ " " +:+ t1) n data)).
Proof.
  intros Hs. unfold load_line. rewrite Hs. cbn. by destruct (int t2).
Qed.

(** C5: for a line with at least three whitespace-separated tokens, [load]
    takes tokens 0 and 1 joined by one space as the key, parses token 2
    with [int], and stores the integer under the key, replacing whatever
    the key held. *)
Theorem load_line_stores {D : Type} {dict : PyDict D}
    (data : D) (line t0 t1 t2 : string) (rest : list string) :
  split line = t0 :: t1 :: t2 :: rest ->
  load_line data line
    = (n ← int t2; mret (dict_setitem (t0 +:+ " " +:+ t1) n data)) /\
  forall n, int t2 = Ok n ->
    exists data', load_line data line = Ok data' /\
      dict_map data' = <[t0 +:+ " " +:+ t1 := n]> (dict_map data) /\
      dict_map data' !! (t0 +:+ " " +:+ t1) = Some n /\
      forall k, k <> t0 +:+ " " +:+ t1 -> dict_map data' !! k = dict_map data !! k.
Proof.
  intros Hs. rewrite (load_line_tokens data line t0 t1 t2 rest Hs).
  split; [done|].
  intros n ->. eexists. split; [reflexivity|].
  rewrite dict_map_setitem. split; [done|]. split.
  - apply lookup_insert_eq.
  - intros k Hk. by apply lookup_insert_ne.
Qed.

Lemma load_line_stores_witness :
  split ("the cat 5" +:+ LF) = ["the"; "cat"; "5"] /\
  exists data' : gmap string Z,
    load_line {["the cat" := 1]} ("the cat 5" +:+ LF) = Ok data' /\
    data' !! "the cat" = Some 5.
Proof.
  split; [reflexivity|].
  destruct (load_line_stores (D:=gmap string Z) {["the cat" := 1]}
              ("the cat 5" +:+ LF) "the" "cat" "5" [] eq_refl)
    as [_ Hst].
  destruct (Hst 5 eq_refl) as (data' & Hl & _ & Hk & _).
  exists data'. split; [exact Hl | exact Hk].
Defined.

(** C6: [load] fails exactly when some line is malformed (fewer than three
    tokens, or a third token that is no integer); the failure is the one
    of the first malformed line, whatever follows it, and the run ends
    with it before anything is printed. *)
Theorem load_fails_iff_malformed {D : Type} {dict : PyDict D} :
  (forall f : list string,
      (exists e, load (D:=D) f = Raise e) <-> Exists malformed f) /\
  (forall pre line post,
      Forall (fun l => ~ malformed l) pre -> malformed line ->
      load (D:=D) (pre ++ line :: post) = Raise (line_error line)) /\
  (forall result e,
      load (D:=D) (lines result) = Raise e ->
      main (D:=D) result = IO [] (Raise e)).
Proof.
  split; [|split].
  - intros f. pose proof (load_records (D:=D) f) as Hl. split.
    + intros [e He]. rewrite He in Hl.
      destruct (records_cases f) as [(recs & Hr & _)|(pre & l & post & -> & _ & Hb & _)];
        [congruence|].
      apply Exists_app. right. by constructor.
    + intros Hex. destruct (load f) as [data|e]; [|by eexists].
      destruct Hl as (recs & Hr & _).
      destruct (records_cases f) as [(recs' & _ & Hall)|(pre & l & post & _ & _ & _ & Hr')];
        [|congruence].
      apply Exists_exists in Hex as (l & Hin & Hbad).
      rewrite Forall_forall in Hall. by destruct (Hall l Hin).
  - intros pre line post Hpre Hbad.
    pose proof (load_records (D:=D) (pre ++ line :: post)) as Hl.
    rewrite (records_app_bad pre line post Hpre Hbad) in Hl.
    destruct (load _) as [data|e]; [by destruct Hl as (? & ? & _) | congruence].
  - intros result e He. by rewrite main_load, He.
Qed.

Lemma load_fails_iff_malformed_witness :
  load (D:=gmap string Z) ["a b 1" +:+ LF; "c d" +:+ LF; "e f 2" +:+ LF]
    = Raise IndexError /\
  load (D:=gmap string Z) ["a b 1" +:+ LF; "c d x" +:+ LF; "e" +:+ LF]
    = Raise ValueError /\
  main (D:=gmap string Z) ("a b 1" +:+ LF +:+ "c d x" +:+ LF)
    = IO [] (Raise ValueError).
Proof.
  destruct (load_fails_iff_malformed (D:=gmap string Z)) as (_ & Hat & Hrun).
  assert (Hok : Forall (fun l => ~ malformed l) ["a b 1" +:+ LF]).
  { constructor; [|constructor].
    intros [Hlt|(t2 & [= <-] & Hp)]; [vm_compute in Hlt; lia|].
    apply Hp. by exists 1. }
  split; [|split].
  - apply (Hat ["a b 1" +:+ LF] ("c d" +:+ LF) ["e f 2" +:+ LF] Hok).
    left. vm_compute. lia.
  - apply (Hat ["a b 1" +:+ LF] ("c d x" +:+ LF) ["e" +:+ LF] Hok).
    right. exists "x". split; [reflexivity|]. intros [n Hn]. discriminate Hn.
  - apply Hrun. reflexivity.
Defined.

Lemma snoc_not_empty (s : string) (c : ascii) : snoc s c <> "".
Proof. by destruct s. Qed.

Lemma lines_from_nil (cur s : string) :
  lines_from cur s = [] <-> cur = "" /\ s = "".
Proof.
  revert cur. induction s as [|c s IH]; intros cur; cbn.
  - destruct (decide (cur = "")); [by subst | split; [done | by intros []]].
  - destruct (decide (c = "010"%char)); [split; [done | by intros []]|].
    rewrite IH. split; [|by intros []].
    intros [[]%snoc_not_empty _].
Qed.

Lemma lines_nil_iff (result : string) : lines result = [] <-> result = "".
Proof. unfold lines. rewrite lines_from_nil. by intuition. Qed.

(** The ranked sequence is empty only for the empty file: every line that
    [load] accepts leaves a key in the table. *)
Lemma empty_ranked_empty_file {D : Type} {dict : PyDict D}
    (result : string) (data : D) :
  load (lines result) = Ok data -> rank data = [] -> result = "".
Proof.
  intros Hl Hr. apply lines_nil_iff. apply rank_nil in Hr.
  pose proof (load_records (D:=D) (lines result)) as Hrec. rewrite Hl in Hrec.
  destruct Hrec as (recs & Hrecs & Hm).
  destruct recs as [|r recs].
  - destruct (lines result) as [|line f]; [done|]. cbn in Hrecs.
    destruct (record_of line); cbn in Hrecs; [|done].
    destruct (records f); done.
  - exfalso. assert (Hk : dict_map data !! r.1 = None) by (by rewrite Hr).
    rewrite Hm, lookup_store_all in Hk. cbn in Hk.
    destruct (last_write r.1 recs); [done|].
    by rewrite decide_True in Hk.
Qed.

(** C7: on an input without records the ranked sequence is empty, and the
    most-common step fails on [sorted_data[0]]: the run ends with
    [IndexError] after the total and the header of the most-common
    section, and prints no key and no top-10% section. *)
Theorem empty_input_fails {D : Type} {dict : PyDict D} (result : string) :
  lines result = [] ->
  exists data : D,
    load (lines result) = Ok data /\
    rank data = [] /\
    most_common (rank data) = IO [] (Raise IndexError) /\
    main (D:=D) result
      = IO [total_line 0; most_common_header] (Raise IndexError).
Proof.
  intros Hl. exists dict_new.
  assert (Hr : rank (D:=D) dict_new = []) by (apply rank_nil, dict_map_new).
  rewrite main_load, Hl.
  replace (load (D:=D) []) with (Ok (dict_new (D:=D))) by reflexivity.
  rewrite Hr. repeat split; reflexivity.
Qed.

Lemma empty_input_fails_witness :
  lines "" = [] /\
  main (D:=gmap string Z) ""
    = IO ["the total number of bigrams:  0"; "the most common bigram: "]
         (Raise IndexError).
Proof.
  split; [reflexivity|].
  destruct (empty_input_fails (D:=gmap string Z) "" eq_refl) as (_ & _ & _ & _ & Hm).
  exact Hm.
Defined.

Lemma records_app (f1 f2 : list string) :
  records (f1 ++ f2) = r1 ← records f1; r2 ← records f2; mret (r1 ++ r2).
Proof.
  induction f1 as [|l f1 IH]; cbn.
  - by destruct (records f2).
  - destruct (record_of l); cbn; [|done]. rewrite IH.
    destruct (records f1); cbn; [|done]. by destruct (records f2).
Qed.

Lemma last_write_app (k : string) (a b : list (string * Z)) :
  last_write k (a ++ b) =
  match last_write k b with
  | Some c => Some c
  | None => last_write k a
  end.
Proof.
  induction a as [|r a IH]; cbn; [by destruct (last_write k b)|].
  rewrite IH. by destruct (last_write k b).
Qed.

Section RunFacts.
Context {D : Type} {dict : PyDict D}.

Lemma main_total_line (result : string) (data : D) :
  load (lines result) = Ok data ->
  exists rest,
    stdout (main (D:=D) result) = total_line (table_sum (dict_map data)) :: rest.
Proof.
  intros Hl. rewrite main_load, Hl, <- rank_sum. apply report_total_line.
Qed.

Lemma load_last_write (f : list string) (data : D) :
  load f = Ok data ->
  exists recs, records f = Ok recs /\
    forall k, dict_map data !! k = last_write k recs.
Proof.
  intros Hl. pose proof (load_records (D:=D) f) as Hr. rewrite Hl in Hr.
  destruct Hr as (recs & Hr & Hm). exists recs. split; [done|].
  intros k. rewrite Hm, lookup_store_all, lookup_empty.
  by destruct (last_write k recs).
Qed.

End RunFacts.

(** C3: duplicate keys are resolved by last-write-wins, and the total that
    is printed is the sum of the counts the table holds after that, one
    per key; on [a b 3] followed by [a b 5] the table holds 5 for [a b]
    and the total is 5, not 8. *)
Theorem last_write_wins_total {D : Type} {dict : PyDict D} :
  (forall (result : string) (data : D),
      load (lines result) = Ok data ->
      exists recs, records (lines result) = Ok recs /\
        (forall k, dict_map data !! k = last_write k recs) /\
        exists rest,
          stdout (main (D:=D) result)
            = total_line (table_sum (dict_map data)) :: rest) /\
  (let result := "a b 3" +:+ LF +:+ "a b 5" +:+ LF in
   exists data : D,
     load (lines result) = Ok data /\
     dict_map data = {["a b" := 5]} /\
     table_sum (dict_map data) = 5 /\
     exists rest,
       stdout (main (D:=D) result) = "the total number of bigrams:  5" :: rest).
Proof.
  split.
  - intros result data Hl.
    destruct (load_last_write _ _ Hl) as (recs & Hr & Hk).
    exists recs. split; [done|]. split; [done|]. by apply main_total_line.
  - intros result.
    exists (dict_setitem "a b" 5 (dict_setitem "a b" 3 dict_new)).
    assert (Hl : load (D:=D) (lines result)
                 = Ok (dict_setitem "a b" 5 (dict_setitem "a b" 3 dict_new)))
      by reflexivity.
    assert (Hm : dict_map (dict_setitem "a b" 5 (dict_setitem "a b" 3 (dict_new (D:=D))))
                 = {["a b" := 5]}).
    { rewrite !dict_map_setitem, dict_map_new, insert_insert_eq.
      apply insert_empty. }
    assert (Hs : table_sum (dict_map (dict_setitem "a b" 5
                   (dict_setitem "a b" 3 (dict_new (D:=D))))) = 5).
    { rewrite Hm. unfold table_sum. by rewrite map_fold_singleton. }
    split; [done|]. split; [done|]. split; [done|].
    destruct (main_total_line result _ Hl) as [rest Hrest].
    exists rest. by rewrite Hrest, Hs.
Qed.

(** C9, amended: [load] does not check the sign of a count: a line whose
    third token is a negative integer is stored like any other; the
    negative count is a summand of the total that is printed when no
    later line writes the same key. *)
Theorem negative_count_accepted {D : Type} {dict : PyDict D} :
  (forall (data : D) (line t0 t1 t2 : string) (rest : list string) (n : Z),
      split line = t0 :: t1 :: t2 :: rest -> int t2 = Ok n -> n < 0 ->
      exists data', load_line data line = Ok data' /\
        dict_map data' !! (t0 +:+ " " +:+ t1) = Some n) /\
  (forall (result : string) (pre : list string) (line : string)
          (post : list string) (k : string) (n : Z) (data : D),
      lines result = pre ++ line :: post ->
      load (lines result) = Ok data ->
      record_of line = Ok (k, n) -> n < 0 ->
      (forall recs, records post = Ok recs -> last_write k recs = None) ->
      dict_map data !! k = Some n /\
      exists rest,
        stdout (main (D:=D) result)
          = total_line (n + table_sum (delete k (dict_map data))) :: rest) /\
  main (D:=D) ("a b -5" +:+ LF)
    = IO ["the total number of bigrams:  -5"; "the most common bigram: ";
          "a b"; top10_header; "a b"] (Ok tt).
Proof.
  split; [|split].
  - intros data line t0 t1 t2 rest n Hs Hn _.
    rewrite (load_line_tokens data line t0 t1 t2 rest Hs), Hn.
    eexists. split; [reflexivity|].
    rewrite dict_map_setitem. apply lookup_insert_eq.
  - intros result pre line post k n data Hlines Hl Hrec _ Hlast.
    destruct (load_last_write _ _ Hl) as (recs & Hr & Hk).
    assert (Hkn : dict_map data !! k = Some n).
    { rewrite Hk. rewrite Hlines, records_app in Hr. cbn in Hr.
      destruct (records pre) as [r1|]; [|done]. cbn in Hr.
      rewrite Hrec in Hr. cbn in Hr.
      destruct (records post) as [r2|]; [|done]. cbn in Hr.
      injection Hr as <-. rewrite last_write_app. cbn.
      rewrite (Hlast r2 eq_refl). cbn. by rewrite decide_True. }
    split; [done|].
    destruct (main_total_line result _ Hl) as [rest Hrest].
    exists rest. rewrite Hrest. do 2 f_equal.
    rewrite <- table_sum_insert. by rewrite insert_id.
  - rewrite main_load.
    replace (load (D:=D) (lines ("a b -5" +:+ LF)))
      with (Ok (dict_setitem "a b" (-5) (dict_new (D:=D)))) by reflexivity.
    assert (Hr : rank (dict_setitem "a b" (-5) (dict_new (D:=D))) = [("a b", -5)]).
    { apply Permutation_singleton_r. rewrite rank_perm.
      rewrite dict_map_setitem, dict_map_new, insert_empty.
      by rewrite map_to_list_singleton. }
    rewrite Hr. reflexivity.
Qed.

Lemma last_write_wins_total_witness :
  let result := "a b 3" +:+ LF +:+ "c d 2" +:+ LF +:+ "a b 5" +:+ LF in
  exists (data : gmap string Z) (rest : list string),
    load (lines result) = Ok data /\
    data !! "a b" = Some 5 /\
    stdout (main (D:=gmap string Z) result)
      = "the total number of bigrams:  7" :: rest.
Proof.
  intros result.
  destruct (last_write_wins_total (D:=gmap string Z)) as [Hgen _].
  destruct (Hgen result (<["a b":=5]> (<["c d":=2]> (<["a b":=3]> ∅))) eq_refl)
    as (recs & Hr & Hk & rest & Hout).
  exists (<["a b":=5]> (<["c d":=2]> (<["a b":=3]> ∅))), rest.
  split; [reflexivity|]. split; [reflexivity|]. exact Hout.
Defined.

(** A negative count that a later line replaces is no part of the total:
    [a b -5] followed by [a b 3] gives the total 3. *)
Lemma negative_count_overwritten :
  let result := "a b -5" +:+ LF +:+ "a b 3" +:+ LF in
  record_of ("a b -5" +:+ LF) = Ok ("a b", -5) /\
  load (D:=gmap string Z) (lines result) = Ok {["a b" := 3]} /\
  main (D:=gmap string Z) result
    = IO [total_line 3; most_common_header; "a b"; top10_header; "a b"] (Ok tt).
Proof. intros result. split; [reflexivity|]. split; vm_compute; reflexivity. Qed.

Lemma negative_count_accepted_witness :
  let result := "a b 7" +:+ LF +:+ "c d -5" +:+ LF +:+ "e f 1" +:+ LF in
  exists rest : list string,
    stdout (main (D:=gmap string Z) result)
      = total_line (-5 + 8) :: rest.
Proof.
  intros result.
  destruct (negative_count_accepted (D:=gmap string Z)) as (_ & Hsum & _).
  destruct (Hsum result ["a b 7" +:+ LF] ("c d -5" +:+ LF) ["e f 1" +:+ LF]
              "c d" (-5)
              (<["e f":=1]> (<["c d":=-5]> (<["a b":=7]> ∅)))
              eq_refl eq_refl eq_refl eq_refl)
    as [_ (rest & Hout)].
  { intros recs [= <-]. reflexivity. }
  exists rest. exact Hout.
Defined.

(** C2: for a non-empty ranked sequence the most-common section prints the
    keys whose count is the maximum count of the sequence, each once, a
    key per line, and nothing else. *)
Theorem most_common_exact {D : Type} {dict : PyDict D} (data : D) :
  rank data <> [] ->
  exists max_num : Z,
    (exists k, (k, max_num) ∈ rank data) /\
    (forall e, e ∈ rank data -> e.2 <= max_num) /\
    most_common (rank data)
      = IO (keys_with_count max_num (rank data)) (Ok tt) /\
    NoDup (keys_with_count max_num (rank data)) /\
    forall k, k ∈ keys_with_count max_num (rank data)
              <-> dict_map data !! k = Some max_num.
Proof.
  intros Hne. pose proof (rank_descending data) as Hs.
  pose proof (rank_NoDup_keys data) as Hnd.
  pose proof (elem_of_rank data) as Hin.
  destruct (rank data) as [|[k0 c0] l]; [done|].
  exists c0. split; [exists k0; by left|]. split.
  - intros e [->|He]%elem_of_cons; [done|].
    apply StronglySorted_inv in Hs as [_ Hall].
    rewrite Forall_forall in Hall. by apply Hall.
  - split; [apply most_common_cons|]. split.
    + by apply keys_with_count_NoDup.
    + intros k. by rewrite elem_of_keys_with_count, Hin.
Qed.

Lemma most_common_exact_witness :
  let data : gmap string Z :=
    <["the cat":=5]> (<["cat sat":=3]> (<["sat mat":=5]> ∅)) in
  rank data <> [] /\
  exists (max_num : Z) (keys : list string),
    most_common (rank data) = IO keys (Ok tt) /\
    forall k, k ∈ keys <-> data !! k = Some max_num.
Proof.
  intros data.
  assert (Hne : rank data <> []) by (vm_compute; discriminate).
  split; [exact Hne|].
  destruct (most_common_exact data Hne) as (max_num & _ & _ & Hout & _ & Hk).
  exists max_num, (keys_with_count max_num (rank data)).
  split; [exact Hout | exact Hk].
Defined.

(** C4: [rank] yields the table's entries, each once, in descending order
    of count; the counts of the sequence add up to the counts of the
    table. *)
Theorem rank_sorted_permutation {D : Type} {dict : PyDict D} (data : D) :
  rank data ≡ₚ map_to_list (dict_map data) /\
  StronglySorted count_ge (rank data) /\
  counts_sum (rank data) = table_sum (dict_map data).
Proof.
  split; [apply rank_perm|]. split; [apply rank_descending | apply rank_sum].
Qed.

(** ** The top-10% section *)

Lemma top10_not_smallest_reaching_prefix :
  let sd := rank ten_ones_table in
  load (lines ten_ones) = Ok ten_ones_table /\
  sd <> [] /\
  length (stdout (top10 sd (counts_sum sd))) = 2%nat /\
  ~ exists n,
      stdout (top10 sd (counts_sum sd)) = (take n sd).*1 /\
      smallest_reaching_prefix sd n.
Proof.
  intros sd.
  assert (Hload : load (lines ten_ones) = Ok ten_ones_table) by (vm_compute; reflexivity).
  assert (Hlen : length sd = 10%nat) by (vm_compute; reflexivity).
  assert (Hsum : counts_sum sd = 10) by (vm_compute; reflexivity).
  assert (Hsum1 : counts_sum (take 1 sd) = 1) by (vm_compute; reflexivity).
  assert (Hsum2 : counts_sum (take 2 sd) = 2) by (vm_compute; reflexivity).
  assert (Hout : length (stdout (top10 sd (counts_sum sd))) = 2%nat)
    by (vm_compute; reflexivity).
  clearbody sd.
  split; [exact Hload|].
  split; [by destruct sd|]. split; [exact Hout|].
  intros (n & Hn & _ & _ & Hmin).
  rewrite Hn, length_fmap, length_take, Hlen in Hout.
  assert (n = 2%nat) as -> by lia.
  specialize (Hmin 1%nat). rewrite Hlen, Hsum, Hsum1, Hsum2 in Hmin. lia.
Qed.

Lemma top10_converted (sd : list (string * Z)) (num : Z) (x : spec_float) :
  PyFloat.of_int num = Ok x ->
  let total := PyFloat.mul x PyFloat.one_tenth in
  top10 sd num =
  IO (stdout (top10_loop sd total))
     (match outcome (top10_loop sd total) with
      | Ok _ => Ok tt
      | Raise e => Raise e
      end).
Proof.
  intros Hx total. unfold top10. rewrite Hx.
  replace (lift (x0 ← Ok x; mret (PyFloat.mul x0 PyFloat.one_tenth)))
    with (lift (Ok total)) by reflexivity.
  rewrite lift_ok_bind. unfold mbind, io_bind.
  destruct (outcome (top10_loop sd total)); [|reflexivity].
  cbn. by rewrite app_nil_r.
Qed.

Lemma top10_overflow (sd : list (string * Z)) (num : Z) (e : exn) :
  PyFloat.of_int num = Raise e -> top10 sd num = IO [] (Raise e).
Proof. intros Hx. unfold top10. by rewrite Hx. Qed.

Lemma top10_loop_zeros (sd : list (string * Z)) :
  Forall (fun e => e.2 = 0) sd ->
  top10_loop sd (S754_zero false) = IO sd.*1 (Ok (S754_zero false)).
Proof.
  induction 1 as [|e l He _ IH]; [reflexivity|].
  rewrite top10_loop_cons, He. cbn. by rewrite IH.
Qed.

Lemma counts_sum_zeros (sd : list (string * Z)) :
  Forall (fun e => e.2 = 0) sd -> counts_sum sd = 0.
Proof. induction 1 as [|e l He _ IH]; cbn; lia. Qed.

Lemma top10_emits_nothing_on_huge_total :
  let data : gmap string Z := {["a b" := 10 ^ 309]} in
  load (lines huge_count) = Ok data /\
  rank data <> [] /\
  (~ exists k rest,
       stdout (top10 (rank data) (counts_sum (rank data))) = k :: rest) /\
  main (D:=gmap string Z) huge_count
    = IO [total_line (10 ^ 309); most_common_header; "a b"; top10_header]
         (Raise OverflowError).
Proof.
  intros data.
  assert (Hl : load (lines huge_count) = Ok data) by (vm_compute; reflexivity).
  assert (Hr : rank data = [("a b", 10 ^ 309)]) by (vm_compute; reflexivity).
  assert (Ht : top10 [("a b", 10 ^ 309)] (10 ^ 309) = IO [] (Raise OverflowError)).
  { apply top10_overflow. vm_compute. reflexivity. }
  split; [exact Hl|]. rewrite main_load, Hl, Hr.
  split; [discriminate|]. split.
  - intros (k & rest & Hout).
    replace (counts_sum [("a b", 10 ^ 309)]) with (10 ^ 309) in Hout
      by (cbn [counts_sum snd]; lia).
    rewrite Ht in Hout. discriminate Hout.
  - rewrite report_cons.
    replace (counts_sum [("a b", 10 ^ 309)]) with (10 ^ 309)
      by (cbn [counts_sum snd]; lia).
    rewrite Ht. reflexivity.
Qed.

(** C10, amended: when the total converts to a float, the top-10% section
    of a non-empty ranked sequence prints at least the first key, which
    is printed before the threshold is tested; when every count is 0 the
    threshold never becomes negative and every key is printed. *)
Theorem top10_emits_first_key (sd : list (string * Z)) :
  sd <> [] ->
  ((exists x, PyFloat.of_int (counts_sum sd) = Ok x) ->
   exists k c rest,
     sd !! 0%nat = Some (k, c) /\
     stdout (top10 sd (counts_sum sd)) = k :: rest) /\
  (Forall (fun e => e.2 = 0) sd ->
   top10 sd (counts_sum sd) = IO sd.*1 (Ok tt)).
Proof.
  intros Hne. split.
  - intros [x Hx]. destruct sd as [|[k c] l]; [done|].
    rewrite (top10_converted _ _ x Hx). cbn zeta. cbn [stdout].
    rewrite top10_loop_cons. exists k, c.
    destruct (PyFloat.of_int (k, c).2); [|by eexists].
    cbn zeta. destruct (PyFloat.ltb0 _); by eexists.
  - intros Hz. rewrite (counts_sum_zeros sd Hz).
    rewrite (top10_converted sd 0 (S754_zero false) eq_refl). cbn zeta.
    replace (PyFloat.mul (S754_zero false) PyFloat.one_tenth)
      with (S754_zero false) by reflexivity.
    by rewrite top10_loop_zeros.
Qed.

Lemma top10_emits_first_key_witness :
  let sd := [("the cat", 0); ("cat sat", 0); ("sat mat", 0)] in
  sd <> [] /\
  (exists rest, stdout (top10 sd (counts_sum sd)) = "the cat" :: rest) /\
  top10 sd (counts_sum sd) = IO ["the cat"; "cat sat"; "sat mat"] (Ok tt).
Proof.
  intros sd.
  assert (Hne : sd <> []) by discriminate.
  destruct (top10_emits_first_key sd Hne) as [Hfirst Hall].
  split; [exact Hne|]. split.
  - destruct Hfirst as (k & c & rest & Hk & Hout);
      [by exists (S754_zero false)|].
    injection Hk as <- _. by exists rest.
  - apply Hall. by repeat constructor.
Defined.

(** ** Double arithmetic of the last loop *)

Module DoubleFacts.
Import PyFloat Double.

(** Number of binary digits. *)
Lemma digits2_pos_bounds (m : positive) :
  2 ^ (Zpos (digits2_pos m) - 1) <= Zpos m < 2 ^ Zpos (digits2_pos m).
Proof.
  induction m as [m IH|m IH|]; cbn [digits2_pos]; [| |cbn; lia].
  - rewrite Pos2Z.inj_succ.
    replace (Z.succ (Zpos (digits2_pos m)) - 1) with (Z.succ (Zpos (digits2_pos m) - 1)) by lia.
    rewrite !Z.pow_succ_r by lia. lia.
  - rewrite Pos2Z.inj_succ.
    replace (Z.succ (Zpos (digits2_pos m)) - 1) with (Z.succ (Zpos (digits2_pos m) - 1)) by lia.
    rewrite !Z.pow_succ_r by lia. lia.
Qed.

Lemma digits2_pos_unique (m : positive) (d : Z) :
  2 ^ (d - 1) <= Zpos m < 2 ^ d -> Zpos (digits2_pos m) = d.
Proof.
  intros [Hlo Hhi]. pose proof (digits2_pos_bounds m) as [Hlo' Hhi'].
  assert (0 < d).
  { destruct (Z.lt_trichotomy d 0) as [?|[->|?]]; [|cbn in Hhi; lia|done].
    rewrite Z.pow_neg_r in Hhi by lia. lia. }
  destruct (Z.lt_trichotomy (Zpos (digits2_pos m)) d) as [Hlt|[?|Hgt]]; [|done|].
  - assert (2 ^ Zpos (digits2_pos m) <= 2 ^ (d - 1)) by (apply Z.pow_le_mono_r; lia). lia.
  - assert (2 ^ d <= 2 ^ (Zpos (digits2_pos m) - 1)) by (apply Z.pow_le_mono_r; lia). lia.
Qed.

(** Shifting right. *)
Lemma iter_pos_nat {A} (f : A -> A) (p : positive) (x : A) :
  SpecFloat.iter_pos f p x = Nat.iter (Pos.to_nat p) f x.
Proof.
  revert x. induction p as [p IH|p IH|]; intros x; cbn [SpecFloat.iter_pos].
  - rewrite !IH, Pos2Nat.inj_xI, Nat.iter_succ_r.
    replace (2 * Pos.to_nat p)%nat with (Pos.to_nat p + Pos.to_nat p)%nat by lia.
    by rewrite Nat.iter_add.
  - rewrite !IH, Pos2Nat.inj_xO.
    replace (2 * Pos.to_nat p)%nat with (Pos.to_nat p + Pos.to_nat p)%nat by lia.
    by rewrite Nat.iter_add.
  - reflexivity.
Qed.

(** One step of [shr_1] halves the mantissa; the flags stay clear when
    the bit shifted out is 0 and they were clear. *)
Lemma shr_1_m (r : shr_record) :
  0 <= shr_m r -> shr_m (shr_1 r) = shr_m r / 2.
Proof.
  destruct r as [m b s]. cbn [shr_m]. intros Hm.
  destruct m as [|[p|p|]|p]; cbn [shr_1 shr_m]; Z.div_mod_to_equations; lia.
Qed.

Lemma shr_1_flags (r : shr_record) :
  0 <= shr_m r -> shr_r r = false -> shr_s r = false -> shr_m r mod 2 = 0 ->
  shr_r (shr_1 r) = false /\ shr_s (shr_1 r) = false.
Proof.
  destruct r as [m b s]. cbn [shr_m shr_r shr_s]. intros Hm -> -> Hev.
  destruct m as [|[p|p|]|p]; cbn; try done; Z.div_mod_to_equations; lia.
Qed.

Lemma shr_iter_m (n : nat) (r : shr_record) :
  0 <= shr_m r ->
  shr_m (Nat.iter n shr_1 r) = shr_m r / 2 ^ Z.of_nat n.
Proof.
  intros Hm. induction n as [|n IH].
  - cbn. by rewrite Z.div_1_r.
  - rewrite Nat.iter_succ, shr_1_m, IH.
    + rewrite Nat2Z.inj_succ, Z.pow_succ_r by lia.
      rewrite Z.div_div by lia. f_equal. lia.
    + rewrite IH. apply Z.div_pos; lia.
Qed.

Lemma shr_iter_exact (n : nat) (m : Z) :
  0 <= m -> m mod 2 ^ Z.of_nat n = 0 ->
  Nat.iter n shr_1 (Build_shr_record m false false)
  = Build_shr_record (m / 2 ^ Z.of_nat n) false false.
Proof.
  intros Hm. induction n as [|n IH]; intros Hmod.
  - cbn. by rewrite Z.div_1_r.
  - rewrite Nat2Z.inj_succ, Z.pow_succ_r in Hmod by lia.
    assert (Hp : 0 < 2 ^ Z.of_nat n) by lia.
    apply Z.mod_divide in Hmod as [q Hq]; [|lia].
    assert (Hn : m mod 2 ^ Z.of_nat n = 0).
    { apply Z.mod_divide; [lia|]. exists (q * 2). lia. }
    rewrite Nat.iter_succ, (IH Hn).
    assert (Hdiv : m / 2 ^ Z.of_nat n = q * 2).
    { rewrite Hq. replace (q * (2 * 2 ^ Z.of_nat n)) with (q * 2 * 2 ^ Z.of_nat n) by lia.
      apply Z.div_mul. lia. }
    set (r := Build_shr_record _ false false).
    assert (Hr0 : 0 <= shr_m r) by (cbn; apply Z.div_pos; lia).
    pose proof (shr_1_m r Hr0) as H1.
    destruct (shr_1_flags r Hr0 eq_refl eq_refl) as [H2 H3].
    { cbn. rewrite Hdiv. apply Z.mod_mul. lia. }
    destruct (shr_1 r) as [m' b' s']. cbn in H1, H2, H3. subst.
    f_equal. rewrite Nat2Z.inj_succ, Z.pow_succ_r by lia.
    rewrite (Z.mul_comm 2), <- Z.div_div by lia. reflexivity.
Qed.

Lemma shr_nonpos (r : shr_record) (e n : Z) : n <= 0 -> shr r e n = (r, e).
Proof. by destruct n. Qed.

Lemma shr_pos_m (r : shr_record) (e n : Z) :
  0 < n -> 0 <= shr_m r ->
  shr_m (shr r e n).1 = shr_m r / 2 ^ n /\ (shr r e n).2 = e + n.
Proof.
  intros Hn Hm. destruct n as [|p|p]; [lia| |lia]. cbn [shr fst snd].
  split; [|done]. rewrite iter_pos_nat, shr_iter_m by done.
  by rewrite positive_nat_Z.
Qed.

Lemma shr_pos_exact (m e n : Z) :
  0 < n -> 0 <= m -> m mod 2 ^ n = 0 ->
  shr (Build_shr_record m false false) e n
  = (Build_shr_record (m / 2 ^ n) false false, e + n).
Proof.
  intros Hn Hm Hmod. destruct n as [|p|p]; [lia| |lia]. cbn [shr].
  rewrite iter_pos_nat, shr_iter_exact; rewrite ?positive_nat_Z; done.
Qed.

(** The exponent of the double format. *)
Lemma fexp_double (e : Z) : fexp prec emax e = Z.max (e - 53) (-1074).
Proof. reflexivity. Qed.

Ltac fexp_norm :=
  repeat match goal with
    | H : context [fexp prec emax ?e] |- _ =>
        change (fexp prec emax e) with (Z.max (e - 53) (-1074)) in H
    | |- context [fexp prec emax ?e] =>
        change (fexp prec emax e) with (Z.max (e - 53) (-1074))
    end.

Lemma round_nearest_even_range (m : Z) (l : location) :
  m <= round_nearest_even m l <= m + 1.
Proof.
  destruct l as [|[]]; cbn; [lia| |lia|lia]. destruct (Z.even m); lia.
Qed.

Lemma binary_round_aux_tail (sx : bool) (mx ex : Z) (lx : location) :
  binary_round_aux prec emax sx mx ex lx =
  let '(mrs, e) := shr_fexp prec emax mx ex lx in
  round_tail sx (round_nearest_even (shr_m mrs) (loc_of_shr_record mrs)) e.
Proof. reflexivity. Qed.

Lemma leb_emax (e : Z) : e <= 971 -> (e <=? emax - prec) = true.
Proof. intros. apply Z.leb_le. unfold emax, prec. lia. Qed.

(** A mantissa at its canonical exponent is left alone. *)
Lemma round_tail_canonical (sx : bool) (m : positive) (e : Z) :
  fexp prec emax (Zpos (digits2_pos m) + e) = e -> e <= 971 ->
  round_tail sx (Zpos m) e = S754_finite sx m e.
Proof.
  intros Hc He. unfold round_tail, shr_fexp.
  cbn [Zdigits2 shr_record_of_loc]. rewrite Hc, Z.sub_diag.
  cbn [shr shr_m]. by rewrite leb_emax.
Qed.

Lemma binary_round_aux_canonical (sx : bool) (m : positive) (e : Z) :
  fexp prec emax (Zpos (digits2_pos m) + e) = e -> e <= 971 ->
  binary_round_aux prec emax sx (Zpos m) e loc_Exact = S754_finite sx m e.
Proof.
  intros Hc He. rewrite binary_round_aux_tail. unfold shr_fexp.
  cbn [Zdigits2 shr_record_of_loc]. rewrite Hc, Z.sub_diag.
  cbn [shr shr_m loc_of_shr_record round_nearest_even].
  by apply round_tail_canonical.
Qed.

Lemma pow2_pos (n : Z) : 0 <= n -> 0 < 2 ^ n.
Proof. intros. apply Z.pow_pos_nonneg; lia. Qed.

Lemma digits2_pos_shift (m m' : positive) (n : Z) :
  0 <= n -> Zpos m' * 2 ^ n = Zpos m ->
  Zpos (digits2_pos m) = Zpos (digits2_pos m') + n.
Proof.
  intros Hn Hm. apply digits2_pos_unique.
  pose proof (digits2_pos_bounds m') as [Hlo Hhi].
  pose proof (pow2_pos n Hn).
  replace (Zpos (digits2_pos m') + n - 1) with (Zpos (digits2_pos m') - 1 + n) by lia.
  rewrite !Z.pow_add_r by lia. nia.
Qed.

(** Rounding a mantissa whose bits below the canonical exponent are 0. *)
Lemma binary_round_aux_exact (sx : bool) (mx : positive) (ex : Z) :
  let f := fexp prec emax (Zpos (digits2_pos mx) + ex) in
  0 <= f - ex -> Zpos mx mod 2 ^ (f - ex) = 0 -> f <= 971 ->
  exists m', binary_round_aux prec emax sx (Zpos mx) ex loc_Exact
             = S754_finite sx m' f /\
    Zpos m' * 2 ^ (f - ex) = Zpos mx /\
    fexp prec emax (Zpos (digits2_pos m') + f) = f.
Proof.
  intros f Hf Hmod Hmax.
  pose proof (pow2_pos (f - ex) Hf) as Hp.
  apply Z.mod_divide in Hmod as [q Hq]; [|lia].
  assert (Hq0 : 0 < q) by nia.
  destruct q as [|m'|]; try lia.
  assert (Hc : fexp prec emax (Zpos (digits2_pos m') + f) = f).
  { pose proof (digits2_pos_shift mx m' (f - ex) Hf) as Hd.
    replace (Zpos (digits2_pos m') + f) with (Zpos (digits2_pos mx) + ex) by lia.
    reflexivity. }
  exists m'. split; [|split; [lia|done]].
  destruct (Z.eq_dec (f - ex) 0) as [E|E].
  - assert (Hfe : ex = f) by lia. rewrite E, Z.mul_1_r in Hq.
    injection Hq as ->. rewrite Hfe. by apply binary_round_aux_canonical.
  - rewrite binary_round_aux_tail. unfold shr_fexp.
    cbn [Zdigits2 shr_record_of_loc]. fold f.
    rewrite shr_pos_exact; [|lia|lia|apply Z.mod_divide; [lia|by exists (Zpos m')]].
    rewrite Hq, Z.div_mul by lia.
    cbn [shr_m loc_of_shr_record round_nearest_even].
    replace (ex + (f - ex)) with f by lia.
    by apply round_tail_canonical.
Qed.

(** Aligning a mantissa to a smaller exponent. *)
Lemma pos_iter_xO (m d : positive) : Zpos (Pos.iter xO m d) = Zpos m * 2 ^ Zpos d.
Proof.
  induction d as [|d IH] using Pos.peano_ind.
  - cbn. lia.
  - rewrite Pos.iter_succ, Pos2Z.inj_xO, IH, Pos2Z.inj_succ, Z.pow_succ_r by lia.
    lia.
Qed.

Lemma shl_align_eq (mx : positive) (ex ex' : Z) :
  exists mz, shl_align mx ex ex' = (mz, Z.min ex ex') /\
             Zpos mz = Zpos mx * 2 ^ (ex - Z.min ex ex').
Proof.
  unfold shl_align. destruct (ex' - ex) as [|d|d] eqn:E.
  - exists mx. replace (Z.min ex ex') with ex by lia.
    rewrite Z.sub_diag. split; [done | cbn; lia].
  - exists mx. replace (Z.min ex ex') with ex by lia.
    rewrite Z.sub_diag. split; [done | cbn; lia].
  - exists (Pos.iter xO mx d). replace (Z.min ex ex') with ex' by lia.
    split; [done|]. rewrite pos_iter_xO. f_equal. f_equal. lia.
Qed.

Lemma fexp_ge (e : Z) : -1074 <= fexp prec emax e.
Proof. rewrite fexp_double. lia. Qed.

(** A value that fits the format is rounded to itself. *)
Lemma binary_round_exact (sx : bool) (mx : positive) (ex : Z) :
  let f := fexp prec emax (Zpos (digits2_pos mx) + ex) in
  f <= ex \/ Zpos mx mod 2 ^ (f - ex) = 0 -> f <= 971 -> -1074 <= ex ->
  exists m', binary_round prec emax sx mx ex = S754_finite sx m' f /\
    fexp prec emax (Zpos (digits2_pos m') + f) = f /\
    Zpos m' * 2 ^ (f + 1074) = Zpos mx * 2 ^ (ex + 1074).
Proof.
  intros f Hrep Hmax Hex. pose proof (fexp_ge (Zpos (digits2_pos mx) + ex)) as Hf.
  fold f in Hf. unfold binary_round. fold f.
  destruct (shl_align_eq mx ex f) as (mz & -> & Hmz).
  destruct (Z.le_gt_cases f ex) as [Hle|Hgt].
  - replace (Z.min ex f) with f in * by lia.
    assert (Hc : fexp prec emax (Zpos (digits2_pos mz) + f) = f).
    { rewrite (digits2_pos_shift mz mx (ex - f)) by (lia || done).
      replace (Zpos (digits2_pos mx) + (ex - f) + f) with (Zpos (digits2_pos mx) + ex) by lia.
      reflexivity. }
    exists mz. split; [by apply binary_round_aux_canonical|]. split; [done|].
    rewrite Hmz, <- Z.mul_assoc, <- Z.pow_add_r by lia. do 2 f_equal. lia.
  - destruct Hrep as [?|Hmod]; [lia|].
    replace (Z.min ex f) with ex in * by lia.
    rewrite Z.sub_diag, Z.mul_1_r in Hmz. injection Hmz as ->.
    destruct (binary_round_aux_exact sx mx ex) as (m' & -> & Hm' & Hc);
      fold f; [lia|done|done|].
    exists m'. split; [done|]. split; [done|].
    rewrite <- Hm', <- Z.mul_assoc, <- Z.pow_add_r by lia. do 2 f_equal. lia.
Qed.

(** Rounding keeps the sign: no underflow to zero from an exponent of
    the format. *)
Lemma shr_record_of_loc_m (m : Z) (l : location) : shr_m (shr_record_of_loc m l) = m.
Proof. by destruct l as [|[]]. Qed.

Lemma shr_fexp_m_pos (m e : Z) (l : location) :
  0 < m -> -1074 <= e ->
  0 < shr_m (shr_fexp prec emax m e l).1 /\ -1074 <= (shr_fexp prec emax m e l).2.
Proof.
  intros Hm He. destruct m as [|p|p]; try lia. unfold shr_fexp. cbn [Zdigits2].
  set (n := fexp prec emax (Zpos (digits2_pos p) + e) - e).
  destruct (Z.le_gt_cases n 0) as [Hn|Hn].
  - rewrite shr_nonpos by done. cbn [fst snd]. by rewrite shr_record_of_loc_m.
  - destruct (shr_pos_m (shr_record_of_loc (Zpos p) l) e n) as [-> ->];
      [lia | rewrite shr_record_of_loc_m; lia |].
    rewrite shr_record_of_loc_m. split; [|lia].
    unfold n in *. rewrite fexp_double in *.
    pose proof (digits2_pos_bounds p) as [Hlo _].
    replace (Z.max (Zpos (digits2_pos p) + e - 53) (-1074) - e)
      with (Zpos (digits2_pos p) - 53) in * by lia.
    apply Z.div_str_pos. split; [apply pow2_pos; lia|].
    etrans; [|exact Hlo]. apply Z.pow_le_mono_r; lia.
Qed.

Lemma round_tail_sign (sx : bool) (m e : Z) :
  0 < m -> -1074 <= e ->
  (exists m' e', round_tail sx m e = S754_finite sx m' e') \/
  round_tail sx m e = S754_infinity sx.
Proof.
  intros Hm He. unfold round_tail.
  destruct (shr_fexp_m_pos m e loc_Exact Hm He) as [Hpos _].
  destruct (shr_fexp prec emax m e loc_Exact) as [mrs e']. cbn [fst] in Hpos.
  destruct (shr_m mrs) as [|m'|]; try lia.
  destruct (e' <=? emax - prec); [left; by eexists _, _ | by right].
Qed.

Lemma binary_round_aux_sign (sx : bool) (m e : Z) (l : location) :
  0 < m -> -1074 <= e ->
  (exists m' e', binary_round_aux prec emax sx m e l = S754_finite sx m' e') \/
  binary_round_aux prec emax sx m e l = S754_infinity sx.
Proof.
  intros Hm He. rewrite binary_round_aux_tail.
  destruct (shr_fexp_m_pos m e l Hm He) as [Hpos He'].
  destruct (shr_fexp prec emax m e l) as [mrs e']. cbn [fst snd] in Hpos, He'.
  apply round_tail_sign; [|done].
  pose proof (round_nearest_even_range (shr_m mrs) (loc_of_shr_record mrs)). lia.
Qed.

Lemma binary_round_sign (sx : bool) (mx : positive) (ex : Z) :
  -1074 <= ex ->
  (exists m' e', binary_round prec emax sx mx ex = S754_finite sx m' e') \/
  binary_round prec emax sx mx ex = S754_infinity sx.
Proof.
  intros He. unfold binary_round.
  destruct (shl_align_eq mx ex (fexp prec emax (Zpos (digits2_pos mx) + ex)))
    as (mz & -> & _).
  apply binary_round_aux_sign; [lia|].
  pose proof (fexp_ge (Zpos (digits2_pos mx) + ex)). lia.
Qed.

Lemma pw_pos (e : Z) : -1074 <= e -> 0 < pw e.
Proof. intros. apply pow2_pos. lia. Qed.

Lemma pw_add (e n : Z) : -1074 <= e -> 0 <= n -> pw (e + n) = 2 ^ n * pw e.
Proof.
  intros He Hn. unfold pw.
  replace (e + n + 1074) with (n + (e + 1074)) by lia.
  apply Z.pow_add_r; lia.
Qed.

Lemma pw_le (e e' : Z) : -1074 <= e -> e <= e' -> pw e' = 2 ^ (e' - e) * pw e.
Proof.
  intros He Hle. rewrite <- pw_add by lia. f_equal. lia.
Qed.

Lemma one_pos : 0 < one.
Proof. by apply pw_pos. Qed.

Lemma canonical_digits (m : positive) (e : Z) :
  fexp prec emax (Zpos (digits2_pos m) + e) = e ->
  -1074 <= e /\ Zpos m < 2 ^ 53 /\ (-1074 < e -> 2 ^ 52 <= Zpos m).
Proof.
  rewrite fexp_double. intros Hc.
  pose proof (digits2_pos_bounds m) as [Hlo Hhi].
  split; [lia|]. split.
  - eapply Z.lt_le_trans; [exact Hhi|]. apply Z.pow_le_mono_r; lia.
  - intros He. replace (Zpos (digits2_pos m)) with 53 in Hlo by lia. exact Hlo.
Qed.

(** [float(c)] of a positive integer below [2^53] is exact. *)
Lemma of_int_small (c : Z) :
  0 < c < 2 ^ 53 ->
  exists mc ec,
    of_int c = Ok (S754_finite false mc ec) /\
    -52 <= ec <= 0 /\ Zpos mc = c * 2 ^ (- ec) /\ 2 ^ 52 <= Zpos mc < 2 ^ 53.
Proof.
  intros [Hc0 Hc]. destruct c as [|p|p]; try lia.
  pose proof (digits2_pos_bounds p) as [Hlo Hhi].
  assert (Hd : 1 <= Zpos (digits2_pos p) <= 53).
  { split; [lia|]. destruct (Z.le_gt_cases (Zpos (digits2_pos p)) 53); [done|].
    assert (2 ^ 53 <= 2 ^ (Zpos (digits2_pos p) - 1)) by (apply Z.pow_le_mono_r; lia).
    lia. }
  destruct (binary_round_exact false p 0) as (m' & Hr & Hcan & Hv).
  { left. rewrite fexp_double. lia. }
  { rewrite fexp_double. lia. }
  { lia. }
  fexp_norm.
  replace (Z.max (Zpos (digits2_pos p) + 0 - 53) (-1074))
    with (Zpos (digits2_pos p) - 53) in * by lia.
  set (ec := Zpos (digits2_pos p) - 53) in *.
  exists m', ec. split; [|split; [lia|]].
  - unfold of_int. cbn [binary_normalize]. by rewrite Hr.
  - assert (Hm : Zpos m' = Zpos p * 2 ^ (- ec)).
    { apply (Z.mul_reg_r _ _ (2 ^ (ec + 1074))); [pose proof (pow2_pos (ec + 1074)); lia|].
      rewrite Hv, <- Z.mul_assoc, <- Z.pow_add_r by lia. do 2 f_equal. lia. }
    split; [done|].
    destruct (canonical_digits m' ec) as (_ & Hlt & Hn); [exact Hcan|].
    split; [apply Hn; lia | exact Hlt].
Qed.

Lemma of_int_zero : of_int 0 = Ok (S754_zero false).
Proof. reflexivity. Qed.

Lemma scaled_nonneg (t : spec_float) : nonneg_double t -> 0 <= scaled t.
Proof.
  destruct t as [s| | |[] m e]; cbn [nonneg_double scaled cond_Zopp]; try done.
  intros [Hc _]. destruct (canonical_digits m e Hc) as (He & _).
  pose proof (pw_pos e He). nia.
Qed.

Lemma pow2_ge_2 (n : Z) : 0 < n -> 2 <= 2 ^ n.
Proof.
  intros Hn. change 2 with (2 ^ 1) at 1. apply Z.pow_le_mono_r; lia.
Qed.

(** [total - c] for a count [c]: negative exactly when [c] exceeds
    [total], and exact otherwise. *)
Lemma sub_int (t : spec_float) (c : Z) :
  nonneg_double t -> scaled t < 2 ^ 53 * one -> 0 <= c < 2 ^ 53 ->
  exists fc, of_int c = Ok fc /\
    (scaled t < c * one -> ltb0 (sub t fc) = true) /\
    (c * one <= scaled t ->
       ltb0 (sub t fc) = false /\ nonneg_double (sub t fc) /\
       scaled (sub t fc) = scaled t - c * one).
Proof.
  intros Ht Hlt [Hc0 Hc]. pose proof one_pos as Hone.
  pose proof (scaled_nonneg t Ht) as Hnn.
  destruct (Z.eq_dec c 0) as [->|Hne].
  { exists (S754_zero false). split; [done|]. split; [lia|]. intros _.
    destruct t as [[]| | |[] m e]; try done; cbn [sub SFsub]; repeat split; try done;
      try apply Ht; cbn [scaled cond_Zopp]; lia. }
  destruct (of_int_small c) as (mc & ec & Hfc & Hec & Hmc & Hmc52 & _); [lia|].
  exists (S754_finite false mc ec). split; [done|].
  assert (Hcv : c * one = Zpos mc * pw ec).
  { unfold one. rewrite (pw_le ec 0), Hmc by lia. rewrite Z.sub_0_l. ring. }
  assert (Hcpos : 0 < c * one) by (apply Z.mul_pos_pos; lia).
  destruct t as [s| | |[] mx ex]; try done.
  { cbn [scaled] in *. split; [done|]. intros Hle. lia. }
  destruct Ht as [Hcan Hmax].
  destruct (canonical_digits mx ex Hcan) as (Hex & Hmx & Hnorm).
  cbn [scaled cond_Zopp] in *.
  unfold sub, SFsub. set (ez := Z.min ex ec).
  destruct (shl_align_eq mx ex ez) as (X & HX & HXv).
  destruct (shl_align_eq mc ec ez) as (C & HC & HCv).
  rewrite HX, HC. cbn [fst cond_Zopp].
  replace (Z.min ex ez) with ez in * by lia.
  replace (Z.min ec ez) with ez in * by lia.
  assert (Hez : -1074 <= ez) by lia.
  pose proof (pw_pos ez Hez) as HP.
  assert (HXP : Zpos mx * pw ex = Zpos X * pw ez).
  { rewrite HXv, (pw_le ez ex) by lia. ring. }
  assert (HCP : c * one = Zpos C * pw ez).
  { rewrite Hcv, HCv, (pw_le ez ec) by lia. ring. }
  rewrite HXP, HCP in *.
  rewrite <- Z.mul_sub_distr_r, <- Z.mul_lt_mono_pos_r, <- Z.mul_le_mono_pos_r by done.
  destruct (Zpos X - Zpos C) as [|r|r] eqn:ER; cbn [binary_normalize].
  - split; [intros; lia|]. intros _. by repeat split.
  - split; [intros; lia|]. intros Hle.
    assert (Hex0 : ex <= 0).
    { destruct (Z.le_gt_cases ex 0) as [|Hgt]; [done|]. exfalso.
      specialize (Hnorm ltac:(lia)).
      rewrite <- HXP, (pw_le 0 ex) in Hlt by lia. fold one in Hlt.
      pose proof (pow2_ge_2 (ex - 0) ltac:(lia)) as H2.
      rewrite Z.mul_assoc in Hlt. apply Z.mul_lt_mono_pos_r in Hlt; [|done].
      assert (2 ^ 52 * 2 <= Zpos mx * 2 ^ (ex - 0))
        by (apply Z.mul_le_mono_nonneg; lia).
      lia. }
    assert (Hece : ec <= ex).
    { destruct (Z.le_gt_cases ec ex) as [|Hgt]; [done|]. exfalso.
      replace ez with ex in * by lia.
      rewrite Z.sub_diag, Z.mul_1_r in HXv.
      pose proof (pow2_ge_2 (ec - ex) ltac:(lia)) as H2.
      assert (2 ^ 52 * 2 <= Zpos mc * 2 ^ (ec - ex))
        by (apply Z.mul_le_mono_nonneg; lia).
      lia. }
    replace ez with ec in * by lia. clear ez.
    rewrite Z.sub_diag, Z.mul_1_r in HCv. injection HCv as ->.
    set (f := fexp prec emax (Zpos (digits2_pos r) + ec)).
    assert (Hfex : f <= ex).
    { pose proof (digits2_pos_bounds r) as [Hlo _].
      assert (Hr : Zpos r < 2 ^ (53 + (ex - ec))).
      { rewrite Z.pow_add_r by lia.
        pose proof (pow2_pos (ex - ec) ltac:(lia)) as Hp.
        assert (Zpos X < 2 ^ 53 * 2 ^ (ex - ec))
          by (rewrite HXv; apply Z.mul_lt_mono_pos_r; lia).
        lia. }
      assert (Zpos (digits2_pos r) - 1 < 53 + (ex - ec)).
      { apply (Z.pow_lt_mono_r_iff 2); lia. }
      unfold f. fexp_norm. lia. }
    destruct (binary_round_exact false r ec) as (m' & -> & Hcan' & Hv'); fold f.
    { destruct (Z.le_gt_cases f ec) as [|Hgt]; [by left|right].
      apply Z.mod_divide; [pose proof (pow2_pos (f - ec)); lia|].
      exists (Zpos mx * 2 ^ (ex - f) - c * 2 ^ (- f)).
      rewrite Z.mul_sub_distr_r, <- !Z.mul_assoc, <- !Z.pow_add_r by lia.
      replace (ex - f + (f - ec)) with (ex - ec) by lia.
      replace (- f + (f - ec)) with (- ec) by lia. lia. }
    { lia. }
    { lia. }
    split; [done|]. split; [split; [done|lia]|].
    cbn [scaled cond_Zopp]. exact Hv'.
  - split; [|intros; lia]. intros _.
    by destruct (binary_round_sign true r ez Hez) as [(m' & e' & ->)| ->].
Qed.

(** Rounding a mantissa of more than 53 bits: the result is the mantissa
    cut to 53 bits, or that plus one unit in the last place. *)
Lemma round_tail_53 (sx : bool) (m2 e1 : Z) :
  2 ^ 52 <= m2 <= 2 ^ 53 -> -1074 <= e1 -> e1 < 971 ->
  exists m' e', round_tail sx m2 e1 = S754_finite sx m' e' /\
    fexp prec emax (Zpos (digits2_pos m') + e') = e' /\ e' <= 971 /\
    e1 <= e' /\ Zpos m' * 2 ^ (e' - e1) = m2.
Proof.
  intros [Hlo Hhi] He1 Hmax. destruct m2 as [|p2|p2]; try lia.
  destruct (Z.eq_dec (Zpos p2) (2 ^ 53)) as [E|E].
  - assert (p2 = 9007199254740992%positive) as -> by lia.
    exists 4503599627370496%positive, (e1 + 1).
    split; [|split; [|split; [lia|split; [lia|]]]].
    + unfold round_tail, shr_fexp. cbn [Zdigits2 digits2_pos shr_record_of_loc].
      fexp_norm.
      replace (Z.max (Zpos (Pos.succ _) + e1 - 53) (-1074) - e1) with 1
        by (cbn [Pos.succ]; lia).
      rewrite shr_pos_exact by done. cbn [shr_m].
      change (Zpos 9007199254740992 / 2 ^ 1) with (Zpos 4503599627370496).
      by rewrite leb_emax by lia.
    + fexp_norm. cbn [digits2_pos Pos.succ]. lia.
    + replace (e1 + 1 - e1) with 1 by lia. reflexivity.
  - assert (Hd : Zpos (digits2_pos p2) = 53) by (apply digits2_pos_unique; lia).
    assert (Hc : fexp prec emax (Zpos (digits2_pos p2) + e1) = e1)
      by (fexp_norm; lia).
    exists p2, e1. rewrite round_tail_canonical by (done || lia).
    rewrite Z.sub_diag. repeat split; (done || lia).
Qed.

Lemma binary_round_aux_long (sx : bool) (M : positive) (e : Z) :
  let n := Zpos (digits2_pos M) - 53 in
  0 < n -> -1074 <= e -> e + n < 971 ->
  exists m' e', binary_round_aux prec emax sx (Zpos M) e loc_Exact
                = S754_finite sx m' e' /\
    fexp prec emax (Zpos (digits2_pos m') + e') = e' /\ e' <= 971 /\
    e + n <= e' /\
    Zpos M / 2 ^ n <= Zpos m' * 2 ^ (e' - (e + n)) <= Zpos M / 2 ^ n + 1.
Proof.
  intros n Hn He Hmax. rewrite binary_round_aux_tail. unfold shr_fexp.
  cbn [Zdigits2 shr_record_of_loc]. fexp_norm.
  replace (Z.max (Zpos (digits2_pos M) + e - 53) (-1074) - e) with n by lia.
  destruct (shr_pos_m (Build_shr_record (Zpos M) false false) e n) as [Hm1 He1];
    [done|cbn; lia|].
  destruct (shr _ e n) as [mrs e1]. cbn [fst snd shr_m] in Hm1, He1. subst e1.
  pose proof (round_nearest_even_range (shr_m mrs) (loc_of_shr_record mrs)) as Hr.
  rewrite Hm1 in *.
  pose proof (digits2_pos_bounds M) as [Hlo Hhi].
  pose proof (pow2_pos n ltac:(lia)) as Hp.
  assert (Hm1lo : 2 ^ 52 <= Zpos M / 2 ^ n).
  { apply Z.div_le_lower_bound; [done|]. rewrite <- Z.pow_add_r by lia.
    replace (n + 52) with (Zpos (digits2_pos M) - 1) by lia. done. }
  assert (Hm1hi : Zpos M / 2 ^ n < 2 ^ 53).
  { apply Z.div_lt_upper_bound; [done|]. rewrite <- Z.pow_add_r by lia.
    replace (n + 53) with (Zpos (digits2_pos M)) by lia. done. }
  destruct (round_tail_53 sx (round_nearest_even (Zpos M / 2 ^ n)
              (loc_of_shr_record mrs)) (e + n))
    as (m' & e' & -> & Hc & He' & Hle & Hv); [lia|lia|lia|].
  exists m', e'. rewrite Hv. do 4 (split; [done|]). exact Hr.
Qed.

(** [num * 0.1] for a total below [2^51]: a double between [num / 10]
    and the next integer. *)
Lemma mul_tenth (num : Z) :
  0 <= num < 2 ^ 51 ->
  exists x, of_int num = Ok x /\
    nonneg_double (mul x one_tenth) /\
    num / 10 * one <= scaled (mul x one_tenth) < (num / 10 + 1) * one.
Proof.
  intros [Hnum0 Hnum]. pose proof one_pos as Hone.
  destruct (Z.eq_dec num 0) as [->|Hne].
  { exists (S754_zero false). split; [done|]. split; [done|].
    change (scaled _) with 0. change (0 / 10) with 0. lia. }
  destruct (of_int_small num) as (mx & ex & Hx & Hex & Hmx & Hmxlo & Hmxhi); [lia|].
  exists (S754_finite false mx ex). split; [done|].
  unfold mul, one_tenth, SFmul. cbn [xorb].
  set (c10 := 7205759403792794%positive).
  set (M := (mx * c10)%positive).
  assert (HM : Zpos M = Zpos mx * Zpos c10) by reflexivity.
  pose proof (digits2_pos_bounds M) as [Hlo Hhi].
  set (d := Zpos (digits2_pos M)) in *.
  assert (HMlo : 2 ^ 104 <= Zpos M) by (rewrite HM; subst c10; lia).
  assert (HMhi : Zpos M < 2 ^ 106) by (rewrite HM; subst c10; lia).
  assert (Hd : 105 <= d <= 106).
  { split.
    - assert (104 < d); [|lia]. apply (Z.pow_lt_mono_r_iff 2); lia.
    - assert (d - 1 < 106); [|lia]. apply (Z.pow_lt_mono_r_iff 2); lia. }
  destruct (binary_round_aux_long false M (ex + -56))
    as (m' & e' & -> & Hc & He' & Hle & Hv); fold d; [lia|lia|lia|].
  split; [by split|].
  set (n := d - 53) in *. set (E1 := ex + -56 + n) in *.
  cbn [scaled cond_Zopp].
  rewrite (pw_le E1 e') by lia. rewrite Z.mul_assoc.
  unfold one. rewrite (pw_le E1 0) by lia.
  pose proof (pw_pos E1 ltac:(lia)) as HP.
  rewrite !Z.mul_assoc.
  rewrite <- Z.mul_le_mono_pos_r, <- Z.mul_lt_mono_pos_r by done.
  set (G := 2 ^ (0 - E1)).
  set (sh := 2 ^ (- ex)) in *.
  assert (Hsh : 0 < sh) by (apply pow2_pos; lia).
  assert (HG : 2 ^ n * G = 2 ^ 56 * sh).
  { unfold G, sh. rewrite <- !Z.pow_add_r by lia. f_equal. lia. }
  pose proof (pow2_pos n ltac:(lia)) as Hpn.
  assert (HGpos : 0 < G) by (apply pow2_pos; lia).
  assert (Hn53 : 2 ^ n <= 2 ^ 53) by (apply Z.pow_le_mono_r; lia).
  set (k := num / 10).
  assert (Hk : 10 * k <= num < 10 * k + 10) by (unfold k; Z.div_mod_to_equations; lia).
  assert (Hlow : k * G <= Zpos M / 2 ^ n).
  { apply Z.div_le_lower_bound; [done|].
    replace (2 ^ n * (k * G)) with (k * (2 ^ n * G)) by ring.
    rewrite HG, HM, Hmx.
    replace (k * (2 ^ 56 * sh)) with (k * 2 ^ 56 * sh) by ring.
    replace (num * sh * Zpos c10) with (num * Zpos c10 * sh) by ring.
    apply Z.mul_le_mono_nonneg_r; [lia|]. subst c10. lia. }
  assert (Hup : Zpos M / 2 ^ n + 1 < (k + 1) * G).
  { assert (Zpos M / 2 ^ n < (k + 1) * G - 1); [|lia].
    apply Z.div_lt_upper_bound; [done|].
    replace (2 ^ n * ((k + 1) * G - 1)) with ((k + 1) * (2 ^ n * G) - 2 ^ n) by ring.
    rewrite HG, HM.
    assert (H2 : 2 ^ n <= 2 * Zpos mx) by lia.
    assert (H3 : Zpos mx * Zpos c10 + 2 * Zpos mx < (k + 1) * (2 ^ 56 * sh)); [|lia].
    rewrite Hmx.
    replace (num * sh * Zpos c10 + 2 * (num * sh))
      with ((num * Zpos c10 + 2 * num) * sh) by ring.
    replace ((k + 1) * (2 ^ 56 * sh)) with ((k + 1) * 2 ^ 56 * sh) by ring.
    apply Z.mul_lt_mono_pos_r; [done|]. subst c10. lia. }
  change (Zpos M / 2 ^ n <= Zpos m' * 2 ^ (e' - E1) <= Zpos M / 2 ^ n + 1) in Hv.
  lia.
Qed.

(** The last loop from a threshold [total] with integer part [b], on
    counts that are exact as doubles: it stops after the first prefix
    whose counts add up to more than [b]. *)
Lemma top10_loop_exact (l : list (string * Z)) (total : spec_float) (b : Z) :
  nonneg_double total -> b < 2 ^ 52 ->
  b * one <= scaled total < (b + 1) * one ->
  Forall (fun e => 0 <= e.2 < 2 ^ 53) l ->
  exists (n : nat) (total' : spec_float),
    (n <= length l)%nat /\
    top10_loop l total = IO (take n l).*1 (Ok total') /\
    (forall j, (j < n)%nat -> counts_sum (take j l) <= b) /\
    ((n = length l /\ counts_sum l <= b) \/
     ((1 <= n)%nat /\ b < counts_sum (take n l))).
Proof.
  intros Ht Hb Hs Hl. revert total b Ht Hb Hs.
  pose proof one_pos as Hone.
  induction Hl as [|e l He _ IH]; intros total b Ht Hb Hs.
  { exists 0%nat, total. pose proof (scaled_nonneg total Ht).
    assert (0 <= b) by nia.
    split; [done|]. split; [done|]. split; [intros; lia|]. by left. }
  assert (Hb0 : 0 <= b) by (pose proof (scaled_nonneg total Ht); nia).
  destruct (sub_int total e.2) as (fc & Hfc & Hneg & Hpos); [done|nia|done|].
  rewrite top10_loop_cons, Hfc. cbn zeta.
  destruct (Z.le_gt_cases e.2 b) as [Hle|Hgt].
  - destruct Hpos as (Hlt & Ht' & Hs'); [nia|]. rewrite Hlt.
    destruct (IH (sub total fc) (b - e.2)) as (n & total' & Hn & Hout & Hpre & Hend);
      [done|lia|nia|].
    exists (S n), total'. rewrite Hout. cbn [length take fmap list_fmap stdout outcome].
    split; [lia|]. split; [done|]. split.
    + intros [|j] Hj; cbn [take counts_sum]; [lia|].
      specialize (Hpre j ltac:(lia)). lia.
    + cbn [counts_sum]. destruct Hend as [[-> ?]|[? ?]]; [left|right]; split; lia.
  - rewrite Hneg by nia.
    exists 1%nat, (sub total fc). cbn [length take fmap list_fmap counts_sum].
    split; [lia|]. split; [done|]. split.
    + intros j Hj. replace j with 0%nat by lia. cbn. lia.
    + right. rewrite take_0. cbn. lia.
Qed.

Lemma counts_bounded (sd : list (string * Z)) (bound : Z) :
  Forall (fun e => 0 <= e.2) sd -> counts_sum sd < bound ->
  Forall (fun e => 0 <= e.2 < bound) sd /\ 0 <= counts_sum sd.
Proof.
  induction 1 as [|e l He _ IH]; cbn [counts_sum]; intros Hs.
  { split; [constructor | lia]. }
  destruct IH as [Hall H0]; [lia|].
  split; [|lia]. constructor; [lia|].
  eapply Forall_impl; [exact Hall|]. cbn. intros; lia.
Qed.

End DoubleFacts.

(** The last loop prints the keys of a prefix: it goes on while the
    running threshold is not negative and stops, after printing the key,
    at the first entry that makes it negative or does not convert. *)
Lemma top10_loop_stops (sd : list (string * Z)) (total : spec_float) :
  sd <> [] ->
  exists n : nat,
    (1 <= n <= length sd)%nat /\
    stdout (top10_loop sd total) = (take n sd).*1 /\
    (forall j, (1 <= j < n)%nat ->
       exists tj, threshold_after total (take j sd) = Ok tj /\
                  PyFloat.ltb0 tj = false) /\
    match outcome (top10_loop sd total) with
    | Ok tn => threshold_after total (take n sd) = Ok tn /\
               (PyFloat.ltb0 tn = true \/ n = length sd)
    | Raise e => threshold_after total (take n sd) = Raise e
    end.
Proof.
  intros Hne. revert total.
  induction sd as [|e l IH]; intros total; [done|].
  rewrite top10_loop_cons.
  destruct (PyFloat.of_int e.2) as [c|err] eqn:Hc.
  2:{ exists 1%nat. cbn [length take stdout outcome threshold_after].
      rewrite take_0, Hc. repeat split; (lia || done). }
  cbn zeta. destruct (PyFloat.ltb0 (PyFloat.sub total c)) eqn:Hlt.
  { exists 1%nat. cbn [length take stdout outcome threshold_after].
    rewrite take_0, Hc. cbn. repeat split; (lia || auto). }
  destruct l as [|e' l'].
  { exists 1%nat. cbn [length take stdout outcome threshold_after top10_loop].
    rewrite Hc. cbn. repeat split; (lia || auto). }
  destruct (IH ltac:(done) (PyFloat.sub total c)) as (n & Hn & Hout & Hpre & Hend).
  exists (S n). cbn [stdout outcome]. rewrite Hout.
  split; [cbn [length] in *; lia|]. split; [done|]. split.
  - intros [|[|j]] Hj; [lia| |].
    + exists (PyFloat.sub total c). cbn [take threshold_after]. rewrite Hc. done.
    + destruct (Hpre (S j) ltac:(lia)) as (tj & Htj & Hltj).
      exists tj. split; [|done].
      change (take (S (S j)) (e :: e' :: l')) with (e :: take (S j) (e' :: l')).
      cbn [threshold_after]. rewrite Hc. exact Htj.
  - change (take (S n) (e :: e' :: l')) with (e :: take n (e' :: l')).
    cbn [threshold_after]. rewrite Hc.
    change (Ok c ≫= _) with (threshold_after (PyFloat.sub total c) (take n (e' :: l'))).
    destruct (outcome (top10_loop (e' :: l') (PyFloat.sub total c))) as [tn|err];
      [|done].
    destruct Hend as [Hth [?|Hlen]]; split; auto.
    right. cbn [length] in *. lia.
Qed.

(** C1, amended: when the total converts to a float, the top-10% section
    of a non-empty ranked sequence prints the keys of a non-empty prefix:
    each key is printed and its count subtracted from a running threshold
    that starts at the double [0.1 * total], and the walk stops, the
    entry included, as soon as the threshold is negative (or a count does
    not convert), and at the end of the sequence otherwise.  When the
    counts are non-negative and the total is below [2^51] the arithmetic
    is exact: the prefix is the shortest one whose counts add up to
    strictly more than a tenth of the total (a prefix that adds up to
    exactly a tenth does not stop the walk), and the whole sequence when
    the total is 0. *)
Theorem top10_prefix (sd : list (string * Z)) :
  sd <> [] ->
  (forall x, PyFloat.of_int (counts_sum sd) = Ok x ->
     let total := PyFloat.mul x PyFloat.one_tenth in
     exists n : nat,
       (1 <= n <= length sd)%nat /\
       stdout (top10 sd (counts_sum sd)) = (take n sd).*1 /\
       (forall j, (1 <= j < n)%nat ->
          exists tj, threshold_after total (take j sd) = Ok tj /\
                     PyFloat.ltb0 tj = false) /\
       match outcome (top10 sd (counts_sum sd)) with
       | Ok _ => exists tn, threshold_after total (take n sd) = Ok tn /\
                   (PyFloat.ltb0 tn = true \/ n = length sd)
       | Raise e => threshold_after total (take n sd) = Raise e
       end) /\
  (Forall (fun e => 0 <= e.2) sd -> counts_sum sd < 2 ^ 51 ->
   exists n : nat,
     (1 <= n <= length sd)%nat /\
     top10 sd (counts_sum sd) = IO (take n sd).*1 (Ok tt) /\
     (forall j, (1 <= j < n)%nat ->
                10 * counts_sum (take j sd) <= counts_sum sd) /\
     (counts_sum sd < 10 * counts_sum (take n sd) \/
      (n = length sd /\ counts_sum sd = 0))).
Proof.
  intros Hne. split.
  - intros x Hx total.
    destruct (top10_loop_stops sd total Hne) as (n & Hn & Hout & Hpre & Hend).
    exists n. rewrite (top10_converted sd _ x Hx). cbn zeta. cbn [stdout outcome].
    fold total. split; [done|]. split; [done|]. split; [done|].
    destruct (outcome (top10_loop sd total)) as [tn|err]; [by exists tn | done].
  - intros Hnn Hsum.
    destruct (DoubleFacts.counts_bounded sd (2 ^ 51) Hnn Hsum) as [Hall H0].
    destruct (DoubleFacts.mul_tenth (counts_sum sd)) as (x & Hx & Ht & Hs); [lia|].
    set (b := counts_sum sd / 10) in *.
    assert (Hb : 10 * b <= counts_sum sd < 10 * b + 10)
      by (unfold b; Z.div_mod_to_equations; lia).
    destruct (DoubleFacts.top10_loop_exact sd (PyFloat.mul x PyFloat.one_tenth) b)
      as (n & total' & Hn & Hout & Hpre & Hend); [done|lia|done| |].
    { eapply Forall_impl; [exact Hall|]. cbn. intros; lia. }
    exists n. rewrite (top10_converted sd _ x Hx). cbn zeta. rewrite Hout.
    cbn [stdout outcome].
    assert (Hn1 : (1 <= n)%nat).
    { destruct Hend as [[-> _]|[? _]]; [|done]. destruct sd; [done | cbn; lia]. }
    split; [lia|]. split; [done|]. split.
    + intros j Hj. specialize (Hpre j ltac:(lia)). lia.
    + destruct Hend as [[-> Hle]|[_ Hgt]]; [right; split; [done|lia] | left; lia].
Qed.

Lemma top10_prefix_witness :
  let sd := [("the cat", 5); ("cat sat", 3); ("sat mat", 3)] in
  sd <> [] /\ Forall (fun e => 0 <= e.2) sd /\ counts_sum sd < 2 ^ 51 /\
  (exists n : nat,
     top10 sd (counts_sum sd) = IO (take n sd).*1 (Ok tt) /\
     (counts_sum sd < 10 * counts_sum (take n sd) \/
      (n = length sd /\ counts_sum sd = 0))) /\
  (exists n : nat,
     (1 <= n <= length sd)%nat /\
     stdout (top10 sd (counts_sum sd)) = (take n sd).*1).
Proof.
  intros sd.
  assert (Hne : sd <> []) by discriminate.
  assert (Hnn : Forall (fun e => 0 <= e.2) sd) by (repeat constructor; cbn; lia).
  assert (Hsum : counts_sum sd < 2 ^ 51) by (cbn; lia).
  split; [exact Hne|]. split; [exact Hnn|]. split; [exact Hsum|].
  destruct (top10_prefix sd Hne) as [Hwalk Hexact]. split.
  - destruct (Hexact Hnn Hsum) as (n & _ & Hout & _ & Hend).
    exists n. split; [exact Hout | exact Hend].
  - destruct (Hwalk (S754_finite false 6192449487634432 (-49)) eq_refl)
      as (n & Hn & Hout & _).
    exists n. split; [exact Hn | exact Hout].
Defined.

(** * The input format, the table and the output as a whole *)

(** ** Tokens and keys *)

Lemma append_nil_l (s : string) : "" +:+ s = s.
Proof. reflexivity. Qed.

Lemma append_cons (a : ascii) (s t : string) :
  String a s +:+ t = String a (s +:+ t).
Proof. reflexivity. Qed.

Ltac append_norm := repeat (rewrite append_nil_l || rewrite append_cons).

Lemma no_space_snoc (cur : string) (c : ascii) :
  no_space cur -> is_space c = false -> no_space (snoc cur c).
Proof.
  unfold snoc. induction cur as [|a cur IH];
    rewrite ?append_nil_l, ?append_cons; cbn; intuition.
Qed.

Lemma split_from_tokens (cur s : string) :
  no_space cur -> Forall (fun t => t <> "" /\ no_space t) (split_from cur s).
Proof.
  revert cur. induction s as [|c s IH]; intros cur Hcur; cbn.
  - destruct (decide (cur = "")); repeat constructor; done.
  - destruct (is_space c) eqn:Hc.
    + destruct (decide (cur = "")); [by apply IH|].
      constructor; [done | by apply IH].
    + by apply IH, no_space_snoc.
Qed.

Lemma split_tokens (s : string) :
  Forall (fun t => t <> "" /\ no_space t) (split s).
Proof. by apply split_from_tokens. Qed.

Lemma split_from_trailing (cur s w : string) :
  all_space w -> split_from cur (s +:+ w) = split_from cur s.
Proof.
  intros Hw. revert cur.
  induction s as [|c s IH]; intros cur; rewrite ?append_nil_l, ?append_cons; cbn.
  - revert cur. induction w as [|c w IHw]; intros cur; [done|].
    destruct Hw as [Hc Hw]. cbn. rewrite Hc.
    destruct (decide (cur = "")) as [->|Hne].
    + by rewrite IHw.
    + by rewrite IHw.
  - destruct (is_space c); [|by rewrite IH].
    destruct (decide (cur = "")); by rewrite IH.
Qed.

Lemma split_leading (w s : string) :
  all_space w -> split (w +:+ s) = split s.
Proof.
  unfold split. induction w as [|c w IH]; [done|].
  intros [Hc Hw]. rewrite append_cons. cbn. rewrite Hc. cbn. by apply IH.
Qed.

Lemma key_inj (t0 t1 u0 u1 : string) :
  no_space t0 -> no_space u0 ->
  t0 +:+ " " +:+ t1 = u0 +:+ " " +:+ u1 -> t0 = u0 /\ t1 = u1.
Proof.
  revert u0. induction t0 as [|a t0 IH]; intros [|b u0]; append_norm; cbn.
  - intros _ _ [= ->]. done.
  - intros _ [Hb _] [= <- _]. discriminate Hb.
  - intros [Ha _] _ [= -> _]. discriminate Ha.
  - intros [_ Ht] [_ Hu] [= -> E]. destruct (IH u0 Ht Hu E) as [-> ->]. done.
Qed.

(** X1: two lines write the same key exactly when their first two tokens are
    the same: the space that joins the tokens cannot be confused with a
    byte of a token. *)
Theorem bigram_key_injective (line1 line2 k1 k2 : string) (n1 n2 : Z) :
  record_of line1 = Ok (k1, n1) -> record_of line2 = Ok (k2, n2) ->
  (k1 = k2 <-> take 2 (split line1) = take 2 (split line2)).
Proof.
  unfold record_of. intros H1 H2.
  pose proof (split_tokens line1) as T1. pose proof (split_tokens line2) as T2.
  destruct (split line1) as [|t0 [|t1 [|t2 r1]]]; try discriminate H1.
  destruct (split line2) as [|u0 [|u1 [|u2 r2]]]; try discriminate H2.
  destruct (int t2); [|discriminate H1]. destruct (int u2); [|discriminate H2].
  injection H1 as <- _. injection H2 as <- _. cbn [take].
  apply Forall_cons in T1 as [[_ Ht0] _]. apply Forall_cons in T2 as [[_ Hu0] _].
  split.
  - intros E. by destruct (key_inj _ _ _ _ Ht0 Hu0 E) as [-> ->].
  - by intros [= -> ->].
Qed.

Lemma bigram_key_injective_witness :
  record_of ("the cat 5" +:+ LF) = Ok ("the cat", 5) /\
  record_of (" the   cat 7 x") = Ok ("the cat", 7) /\
  take 2 (split ("the cat 5" +:+ LF)) = take 2 (split " the   cat 7 x").
Proof.
  split; [reflexivity|]. split; [reflexivity|].
  apply (bigram_key_injective ("the cat 5" +:+ LF) " the   cat 7 x"
           "the cat" "the cat" 5 7 eq_refl eq_refl).
  reflexivity.
Defined.

(** X2: whitespace around a line does not count: a line read with a carriage
    return before the newline, with no newline at all, or indented, is
    stored like the bare line. *)
Theorem load_line_ignores_outer_space {D : Type} {dict : PyDict D}
    (data : D) (w1 line w2 : string) :
  all_space w1 -> all_space w2 ->
  load_line data (w1 +:+ line +:+ w2) = load_line data line.
Proof.
  intros H1 H2. unfold load_line.
  rewrite (split_leading w1 _ H1). unfold split.
  by rewrite (split_from_trailing "" line w2 H2).
Qed.

Lemma load_line_ignores_outer_space_witness :
  let CR := String "013"%char "" in
  load_line (D:=gmap string Z) ∅ ("  " +:+ "the cat 5" +:+ (CR +:+ LF))
  = Ok {["the cat" := 5]}.
Proof.
  intros CR.
  rewrite (load_line_ignores_outer_space (D:=gmap string Z) ∅ "  " "the cat 5" (CR +:+ LF)).
  - reflexivity.
  - repeat split.
  - repeat split.
Defined.

(** ** Concatenating files *)

Lemma lines_from_app (cur s1 s2 : string) :
  lines_from cur (s1 +:+ LF +:+ s2) = lines_from cur (s1 +:+ LF) ++ lines s2.
Proof.
  revert cur. induction s1 as [|c s1 IH]; intros cur; [reflexivity|].
  rewrite !append_cons. cbn. destruct (decide (c = "010"%char)).
  - cbn. f_equal. apply IH.
  - apply IH.
Qed.

Lemma load_from_app {D : Type} {dict : PyDict D} (data : D) (f1 f2 : list string) :
  load_from data (f1 ++ f2) = (data' ← load_from data f1; load_from data' f2).
Proof.
  revert data. induction f1 as [|l f1 IH]; intros data; [reflexivity|].
  cbn. destruct (load_line data l) as [d|e]; [|reflexivity]. apply IH.
Qed.

Lemma store_all_union (m : gmap string Z) (recs : list (string * Z)) :
  store_all m recs = store_all ∅ recs ∪ m.
Proof.
  apply map_eq. intros k. rewrite lookup_union, !lookup_store_all, lookup_empty.
  destruct (last_write k recs); [|by rewrite (left_id_L None _)].
  by destruct (m !! k).
Qed.

Lemma load_concat_eq {D : Type} {dict : PyDict D} (s1 s2 : string) :
  load (D:=D) (lines (s1 +:+ LF +:+ s2))
    = (data ← load (lines (s1 +:+ LF)); load_from data (lines s2)).
Proof. unfold load, lines. by rewrite lines_from_app, load_from_app. Qed.

Lemma load_concat_map {D : Type} {dict : PyDict D} (s1 s2 : string) (d1 d2 : D) :
  load (lines (s1 +:+ LF)) = Ok d1 -> load (lines s2) = Ok d2 ->
  exists d, load (lines (s1 +:+ LF +:+ s2)) = Ok d /\
            dict_map d = dict_map d2 ∪ dict_map d1.
Proof.
  intros H1 H2. rewrite load_concat_eq, H1. cbn.
  pose proof (load_from_records d1 (lines s2)) as Hf.
  pose proof (load_records (D:=D) (lines s2)) as Hl. rewrite H2 in Hl.
  destruct Hl as (recs & Hr & Hm).
  destruct (load_from d1 (lines s2)) as [d|e]; [|congruence].
  destruct Hf as (recs' & Hr' & Hm'). exists d. split; [done|].
  rewrite Hm', Hm. replace recs' with recs by congruence.
  apply store_all_union.
Qed.

(** X3: loading two files one after the other is loading the second onto the
    table of the first: the table of a concatenation is the table of the
    second file, completed by the entries of the first for the keys the
    second does not write; a failure in the first part is the failure of
    the whole. *)
Theorem load_concat {D : Type} {dict : PyDict D} (s1 s2 : string) :
  load (D:=D) (lines (s1 +:+ LF +:+ s2))
    = (data ← load (lines (s1 +:+ LF)); load_from data (lines s2)) /\
  (forall d1 d2 : D,
      load (lines (s1 +:+ LF)) = Ok d1 -> load (lines s2) = Ok d2 ->
      exists d, load (lines (s1 +:+ LF +:+ s2)) = Ok d /\
                dict_map d = dict_map d2 ∪ dict_map d1).
Proof.
  split; [apply load_concat_eq|]. intros d1 d2. apply load_concat_map.
Qed.

Lemma load_concat_witness :
  exists d : gmap string Z,
    load (lines (("a b 3" +:+ LF +:+ "c d 2") +:+ LF +:+ ("a b 5" +:+ LF))) = Ok d /\
    d = {["a b" := 5]} ∪ <["c d" := 2]> {["a b" := 3]}.
Proof.
  destruct (load_concat (D:=gmap string Z) ("a b 3" +:+ LF +:+ "c d 2") ("a b 5" +:+ LF))
    as [_ H].
  destruct (H (<["c d" := 2]> {["a b" := 3]}) {["a b" := 5]}) as (d & Hd & Hm).
  - vm_compute. reflexivity.
  - vm_compute. reflexivity.
  - exists d. split; [exact Hd | exact Hm].
Defined.

(** ** Decimal numerals: [str] and [int] *)

Lemma digits_of_uint_acc (d : Decimal.uint) (acc : positive) :
  digits (Zpos acc) (NilEmpty.string_of_uint d)
  = Some (Zpos (Pos.of_uint_acc d acc)).
Proof.
  revert acc. induction d as [|d IH|d IH|d IH|d IH|d IH|d IH|d IH|d IH|d IH|d IH];
    intros acc; [reflexivity|..];
    cbn [NilEmpty.string_of_uint digits Pos.of_uint_acc];
    match goal with
    | |- context [is_digit ?c] => change (is_digit c) with true; cbn iota
    end;
    rewrite <- IH; f_equal;
    match goal with
    | |- context [digit_val ?c] =>
        let v := eval vm_compute in (digit_val c) in change (digit_val c) with v
    end; lia.
Qed.

Lemma digits_of_uint (d : Decimal.uint) :
  digits 0 (NilEmpty.string_of_uint d) = Some (Z.of_N (Pos.of_uint d)).
Proof.
  induction d as [|d IH|d IH|d IH|d IH|d IH|d IH|d IH|d IH|d IH|d IH];
    [reflexivity | exact IH | ..];
    cbn [NilEmpty.string_of_uint digits Pos.of_uint Z.of_N];
    match goal with
    | |- context [is_digit ?c] => change (is_digit c) with true; cbn iota
    end;
    rewrite <- digits_of_uint_acc; f_equal.
Qed.

Lemma no_space_uint (d : Decimal.uint) : no_space (NilEmpty.string_of_uint d).
Proof. induction d; cbn [NilEmpty.string_of_uint no_space]; by try split. Qed.

Lemma numeral_of_pos (p : positive) :
  exists c s,
    NilZero.string_of_uint (Pos.to_uint p) = String c s /\
    is_digit c = true /\ no_space (String c s) /\
    digits 0 (String c s) = Some (Zpos p).
Proof.
  pose proof (digits_of_uint (Pos.to_uint p)) as Hd.
  rewrite DecimalPos.Unsigned.of_to in Hd.
  pose proof (no_space_uint (Pos.to_uint p)) as Hn.
  destruct (Pos.to_uint p) as [|d|d|d|d|d|d|d|d|d|d]; [discriminate Hd|..];
    eexists _, _; (split; [reflexivity|]); (split; [reflexivity|]); by split.
Qed.

Lemma int_digit_first (c : ascii) (s : string) :
  is_digit c = true ->
  int (String c s)
  = match digits 0 (String c s) with
    | Some n => Ok n
    | None => Raise ValueError
    end.
Proof.
  intros Hc.
  destruct c as [[] [] [] [] [] [] [] []];
    try (vm_compute in Hc; discriminate Hc); reflexivity.
Qed.

Lemma int_minus (s : string) :
  int (String "-" s)
  = match unsigned s with
    | Some n => Ok (- n)
    | None => Raise ValueError
    end.
Proof. unfold int. by destruct (unsigned s). Qed.

Lemma int_str (n : Z) : int (str n) = Ok n.
Proof.
  destruct n as [|p|p]; [reflexivity|..]; unfold str;
    cbn [Z.to_int NilZero.string_of_int];
    destruct (numeral_of_pos p) as (c & s & -> & Hc & _ & Hd).
  - by rewrite (int_digit_first c s Hc), Hd.
  - rewrite int_minus. cbn [unsigned]. by rewrite Hd.
Qed.

Lemma str_token (n : Z) : str n <> "" /\ no_space (str n).
Proof.
  destruct n as [|p|p]; [by repeat split|..]; unfold str;
    cbn [Z.to_int NilZero.string_of_int];
    destruct (numeral_of_pos p) as (c & s & -> & _ & Hn & _).
  - by split.
  - split; [done|]. by split.
Qed.

(** ** Lines written as key, space, count *)

Lemma snoc_append (cur : string) (c : ascii) (s : string) :
  snoc cur c +:+ s = cur +:+ String c s.
Proof. unfold snoc. induction cur as [|a cur IH]; append_norm; [done | by rewrite IH]. Qed.

Lemma append_nil_r (s : string) : s +:+ "" = s.
Proof. induction s as [|a s IH]; append_norm; [done | by rewrite IH]. Qed.

Lemma split_from_token (cur t rest : string) :
  no_space t -> split_from cur (t +:+ rest) = split_from (cur +:+ t) rest.
Proof.
  revert cur. induction t as [|c t IH]; intros cur Ht; append_norm.
  - by rewrite append_nil_r.
  - destruct Ht as [Hc Ht]. cbn [split_from]. rewrite Hc, (IH _ Ht).
    by rewrite snoc_append.
Qed.

Lemma split_from_space (cur rest : string) (c : ascii) :
  cur <> "" -> is_space c = true ->
  split_from cur (String c rest) = cur :: split_from "" rest.
Proof. intros Hne Hc. cbn [split_from]. by rewrite Hc, decide_False. Qed.

Lemma split_written (t0 t1 t2 w : string) :
  t0 <> "" -> no_space t0 -> t1 <> "" -> no_space t1 ->
  t2 <> "" -> no_space t2 -> all_space w ->
  split (t0 +:+ " " +:+ t1 +:+ " " +:+ t2 +:+ w) = [t0; t1; t2].
Proof.
  intros H0 N0 H1 N1 H2 N2 Hw. unfold split.
  rewrite (split_from_token "" t0 _ N0). append_norm.
  rewrite (split_from_space t0 _ " "%char H0 eq_refl).
  rewrite (split_from_token "" t1 _ N1). append_norm.
  rewrite (split_from_space t1 _ " "%char H1 eq_refl).
  rewrite (split_from_token "" t2 _ N2). append_norm.
  do 2 f_equal.
  rewrite <- (append_nil_l w), (split_from_trailing t2 "" w Hw).
  cbn [split_from]. by rewrite decide_False.
Qed.

(** X4: [int] reads back what [str] writes, so the script can read its own
    numbers: a line made of two tokens and the decimal form of a count
    stores that count under the key of the two tokens, and the total
    the script prints is a numeral that [int] reads as the sum of the
    table's counts. *)
Theorem written_line_reads_back {D : Type} {dict : PyDict D} :
  (forall n : Z, int (str n) = Ok n) /\
  (forall (data : D) (t0 t1 : string) (n : Z),
      t0 <> "" -> no_space t0 -> t1 <> "" -> no_space t1 ->
      load_line data (t0 +:+ " " +:+ t1 +:+ " " +:+ str n +:+ LF)
      = Ok (dict_setitem (t0 +:+ " " +:+ t1) n data)) /\
  (forall (result : string) (data : D),
      load (lines result) = Ok data ->
      exists numeral rest,
        stdout (main (D:=D) result)
          = ("the total number of bigrams:  " +:+ numeral) :: rest /\
        int numeral = Ok (table_sum (dict_map data))).
Proof.
  split; [exact int_str|]. split.
  - intros data t0 t1 n H0 N0 H1 N1. destruct (str_token n) as [H2 N2].
    assert (Hw : all_space LF) by (by split).
    rewrite (load_line_tokens data _ t0 t1 (str n) []
               (split_written t0 t1 (str n) LF H0 N0 H1 N1 H2 N2 Hw)).
    by rewrite int_str.
  - intros result data Hl. destruct (main_total_line result data Hl) as [rest Hout].
    exists (str (table_sum (dict_map data))), rest. split; [exact Hout | apply int_str].
Qed.

Lemma written_line_reads_back_witness :
  load_line (D:=gmap string Z) ∅ ("the" +:+ " " +:+ "cat" +:+ " " +:+ str (-12) +:+ LF)
  = Ok {["the cat" := -12]}.
Proof.
  destruct (written_line_reads_back (D:=gmap string Z)) as (_ & Hline & _).
  rewrite (Hline ∅ "the" "cat" (-12)).
  - reflexivity.
  - discriminate.
  - repeat split.
  - discriminate.
  - repeat split.
Defined.

(** ** Ties in the ranked sequence *)

Lemma filter_insert_by_count (c : Z) (x : string * Z) (l : list (string * Z)) :
  filter (fun e => e.2 = c) (insert_by_count x l)
  = filter (fun e => e.2 = c) (x :: l).
Proof.
  induction l as [|y l IH]; [done|]. cbn [insert_by_count].
  destruct (Z.leb_spec x.2 y.2) as [Hle|Hgt]; [done|].
  rewrite filter_cons, IH, !filter_cons.
  destruct (decide (y.2 = c)), (decide (x.2 = c)); try done. lia.
Qed.

Lemma filter_sorted (c : Z) (l : list (string * Z)) :
  filter (fun e => e.2 = c) (sorted l) = filter (fun e => e.2 = c) l.
Proof.
  induction l as [|x l IH]; [done|]. cbn [sorted].
  by rewrite filter_insert_by_count, !filter_cons, IH.
Qed.

(** X5: entries of equal count come out of [rank] in the reverse of their
    [items()] order: the sort is stable, and [reversed] turns the runs of
    equal counts around with everything else. *)
Theorem rank_ties_reversed {D : Type} {dict : PyDict D} (data : D) (c : Z) :
  filter (fun e => e.2 = c) (rank data)
  = reverse (filter (fun e => e.2 = c) (dict_items data)).
Proof. unfold rank. by rewrite filter_reverse, filter_sorted. Qed.

(** ** The most-common section as a prefix *)

Lemma filter_below (c : Z) (l : list (string * Z)) :
  Forall (fun e => e.2 < c) l -> filter (fun e => e.2 = c) l = [].
Proof.
  induction 1 as [|x l Hx _ IH]; [done|].
  rewrite filter_cons, decide_False by lia. exact IH.
Qed.

Lemma filter_max_prefix (c : Z) (l : list (string * Z)) :
  StronglySorted count_ge l -> Forall (fun e => e.2 <= c) l ->
  let m := length (filter (fun e => e.2 = c) l) in
  filter (fun e => e.2 = c) l = take m l /\
  Forall (fun e => e.2 < c) (drop m l).
Proof.
  induction 1 as [|x l Hl IH Hx]; [done|]. intros [Hxc Hlc]%Forall_cons.
  rewrite filter_cons. destruct (decide (x.2 = c)) as [E|E].
  - cbn [length take drop]. destruct (IH Hlc) as [IH1 IH2].
    split; [by f_equal | done].
  - assert (Hlow : Forall (fun e => e.2 < c) l).
    { eapply Forall_impl; [exact Hx|]. unfold count_ge. cbn. intros; lia. }
    rewrite (filter_below c l Hlow). cbn [length take drop].
    split; [done|]. constructor; [lia | done].
Qed.

(** X6: the bigrams of the most-common section are the first entries of the
    ranked sequence: the section prints the keys of a non-empty prefix,
    every entry after the prefix has a smaller count, and the key the
    section starts with is the key the top-10% section starts with. *)
Theorem most_common_is_prefix {D : Type} {dict : PyDict D} (data : D) :
  rank data <> [] ->
  exists m : nat,
    (1 <= m <= length (rank data))%nat /\
    most_common (rank data) = IO (take m (rank data)).*1 (Ok tt) /\
    (forall e e', e ∈ take m (rank data) -> e' ∈ drop m (rank data) -> e'.2 < e.2) /\
    (forall x, PyFloat.of_int (counts_sum (rank data)) = Ok x ->
       head (stdout (top10 (rank data) (counts_sum (rank data))))
       = head (stdout (most_common (rank data)))).
Proof.
  intros Hne. pose proof (rank_descending data) as Hs.
  destruct (rank data) as [|e l]; [done|]. clear Hne.
  assert (Hmax : Forall (fun e' => e'.2 <= e.2) (e :: l)).
  { apply StronglySorted_inv in Hs as [_ Hall]. constructor; [lia | done]. }
  destruct (filter_max_prefix e.2 (e :: l) Hs Hmax) as [Hpre Hrest].
  set (m := length (filter (fun e' => e'.2 = e.2) (e :: l))) in *.
  assert (Hm : (1 <= m <= length (e :: l))%nat).
  { split; [|apply length_filter].
    subst m. rewrite filter_cons, decide_True by done. cbn. lia. }
  assert (Hmc : most_common (e :: l) = IO (take m (e :: l)).*1 (Ok tt)).
  { rewrite most_common_cons. unfold keys_with_count. by rewrite Hpre. }
  exists m. split; [done|]. split; [done|]. split.
  - intros a b Ha Hb. rewrite <- Hpre in Ha.
    apply list_elem_of_filter in Ha as [-> _].
    rewrite Forall_forall in Hrest. by apply Hrest.
  - intros x Hx. rewrite Hmc, (top10_converted _ _ x Hx). cbn zeta. cbn [stdout].
    rewrite top10_loop_cons.
    destruct m as [|m]; [lia|]. cbn [take fmap list_fmap head].
    destruct (PyFloat.of_int e.2); [|done].
    cbn zeta. by destruct (PyFloat.ltb0 _).
Qed.

Lemma most_common_is_prefix_witness :
  let data : gmap string Z :=
    <["the cat":=5]> (<["cat sat":=3]> (<["sat mat":=5]> ∅)) in
  rank data <> [] /\
  exists m : nat,
    (1 <= m <= length (rank data))%nat /\
    most_common (rank data) = IO (take m (rank data)).*1 (Ok tt).
Proof.
  intros data.
  assert (Hne : rank data <> []) by (vm_compute; discriminate).
  split; [exact Hne|].
  destruct (most_common_is_prefix data Hne) as (m & Hm & Hout & _).
  exists m. split; [exact Hm | exact Hout].
Defined.

(** ** What is printed *)

Lemma top10_stdout_prefix (sd : list (string * Z)) (num : Z) :
  exists n : nat, (n <= length sd)%nat /\ stdout (top10 sd num) = (take n sd).*1.
Proof.
  destruct (PyFloat.of_int num) as [x|err] eqn:Hx.
  - rewrite (top10_converted sd num x Hx). cbn zeta. cbn [stdout].
    destruct sd as [|e l]; [by exists 0%nat|].
    destruct (top10_loop_stops (e :: l) (PyFloat.mul x PyFloat.one_tenth))
      as (n & Hn & Hout & _); [done|].
    exists n. split; [lia | done].
  - rewrite (top10_overflow sd num err Hx). exists 0%nat. split; [lia | done].
Qed.

Lemma rank_length {D : Type} {dict : PyDict D} (data : D) :
  length (rank data) = size (dict_map data).
Proof.
  rewrite (Permutation_length (rank_perm data)). apply length_map_to_list.
Qed.

Lemma keys_with_count_length (c : Z) (l : list (string * Z)) :
  (length (keys_with_count c l) <= length l)%nat.
Proof. unfold keys_with_count. rewrite length_fmap. apply length_filter. Qed.

(** X7: apart from the total and the two headers the script prints nothing
    but keys of the table, and no key twice within a section: at most
    three lines and two lines a key. *)
Theorem printed_keys_in_table {D : Type} {dict : PyDict D}
    (result : string) (data : D) :
  load (lines result) = Ok data ->
  (forall s, s ∈ stdout (main (D:=D) result) ->
     s = total_line (table_sum (dict_map data)) \/ s = most_common_header \/
     s = top10_header \/ is_Some (dict_map data !! s)) /\
  NoDup (stdout (most_common (rank data))) /\
  NoDup (stdout (top10 (rank data) (counts_sum (rank data)))) /\
  (length (stdout (main (D:=D) result)) <= 3 + 2 * size (dict_map data))%nat.
Proof.
  intros Hl. rewrite main_load, Hl, <- rank_length, <- rank_sum.
  pose proof (elem_of_rank data) as Hin.
  pose proof (rank_NoDup_keys data) as Hnd.
  set (sd := rank data) in *. clearbody sd.
  destruct (top10_stdout_prefix sd (counts_sum sd)) as (n & Hn & Ht).
  assert (Hkey : forall k, k ∈ sd.*1 -> is_Some (dict_map data !! k)).
  { intros k ([k' c] & -> & Hk)%list_elem_of_fmap. exists c. by apply Hin. }
  assert (Htn : NoDup (take n sd).*1).
  { rewrite fmap_take. eapply sublist_NoDup; [exact Hnd | apply sublist_take]. }
  destruct sd as [|e l].
  { rewrite report_nil. cbn [stdout]. split; [|split; [|split]].
    - intros s Hs.
      apply elem_of_cons in Hs as [->|Hs]; [by left|].
      apply elem_of_cons in Hs as [->|Hs]; [by right; left|].
      by apply elem_of_nil in Hs.
    - rewrite most_common_nil. constructor.
    - rewrite Ht. exact Htn.
    - cbn. lia. }
  rewrite report_cons. cbn zeta. cbn [stdout].
  rewrite most_common_cons. cbn [stdout]. rewrite Ht.
  split; [|split; [|split]].
  - intros s Hs.
    apply elem_of_cons in Hs as [->|Hs]; [by left|].
    apply elem_of_cons in Hs as [->|Hs]; [by right; left|].
    apply elem_of_app in Hs as [Hs|Hs].
    + do 3 right. apply elem_of_keys_with_count in Hs.
      eexists. apply Hin, Hs.
    + apply elem_of_cons in Hs as [->|Hs]; [by right; right; left|].
      do 3 right. apply Hkey. rewrite fmap_take in Hs.
      eapply elem_of_sublist; [exact Hs | apply sublist_take].
  - by apply keys_with_count_NoDup.
  - exact Htn.
  - cbn [length]. rewrite List.length_app. cbn [length].
    rewrite length_fmap, length_take.
    pose proof (keys_with_count_length e.2 (e :: l)) as Hk. cbn [length] in Hk.
    cbn [length] in *. lia.
Qed.

Lemma printed_keys_in_table_witness :
  let result := "the cat 5" +:+ LF +:+ "cat sat 3" +:+ LF in
  let data : gmap string Z := <["cat sat":=3]> {["the cat":=5]} in
  load (lines result) = Ok data /\
  Forall (fun s => s = total_line 8 \/ s = most_common_header \/
                   s = top10_header \/ is_Some (data !! s))
         (stdout (main (D:=gmap string Z) result)) /\
  (length (stdout (main (D:=gmap string Z) result)) <= 7)%nat.
Proof.
  intros result data.
  assert (Hl : load (lines result) = Ok data) by (vm_compute; reflexivity).
  destruct (printed_keys_in_table (D:=gmap string Z) result data Hl)
    as (Hk & _ & _ & Hlen).
  split; [exact Hl|]. split; [|exact Hlen].
  apply Forall_forall. exact Hk.
Defined.

(** ** The order of [items()] *)

Lemma counts_sum_counts (sd1 sd2 : list (string * Z)) :
  sd1.*2 = sd2.*2 -> counts_sum sd1 = counts_sum sd2.
Proof.
  revert sd2. induction sd1 as [|e1 l1 IH]; intros [|e2 l2]; try done.
  rewrite !fmap_cons. intros [= E1 E2]. cbn [counts_sum]. rewrite E1.
  f_equal. by apply IH.
Qed.

Lemma keys_with_count_counts (c : Z) (sd1 sd2 : list (string * Z)) :
  sd1.*2 = sd2.*2 ->
  length (keys_with_count c sd1) = length (keys_with_count c sd2).
Proof.
  unfold keys_with_count. rewrite !length_fmap.
  revert sd2. induction sd1 as [|e1 l1 IH]; intros [|e2 l2]; try done.
  rewrite !fmap_cons. intros [= E1 E2]. rewrite !filter_cons, E1.
  destruct (decide (e2.2 = c)); cbn [length]; by rewrite (IH l2 E2).
Qed.

Lemma top10_loop_counts (sd1 sd2 : list (string * Z)) (total : spec_float) :
  sd1.*2 = sd2.*2 ->
  outcome (top10_loop sd1 total) = outcome (top10_loop sd2 total) /\
  length (stdout (top10_loop sd1 total)) = length (stdout (top10_loop sd2 total)).
Proof.
  revert sd2 total. induction sd1 as [|e1 l1 IH]; intros [|e2 l2] total; try done.
  rewrite !fmap_cons. intros [= E1 E2]. rewrite !top10_loop_cons, E1.
  destruct (PyFloat.of_int e2.2) as [c|err]; [|done].
  cbn zeta. destruct (PyFloat.ltb0 _); [done|]. cbn [outcome stdout length].
  destruct (IH l2 (PyFloat.sub total c) E2) as [-> ->]. done.
Qed.

Lemma top10_counts (sd1 sd2 : list (string * Z)) (num : Z) :
  sd1.*2 = sd2.*2 ->
  outcome (top10 sd1 num) = outcome (top10 sd2 num) /\
  length (stdout (top10 sd1 num)) = length (stdout (top10 sd2 num)).
Proof.
  intros E. destruct (PyFloat.of_int num) as [x|err] eqn:Hx.
  - rewrite !(top10_converted _ num x Hx). cbn zeta. cbn [outcome stdout].
    by destruct (top10_loop_counts sd1 sd2 (PyFloat.mul x PyFloat.one_tenth) E)
      as [-> ->].
  - by rewrite !(top10_overflow _ num err Hx).
Qed.

Lemma report_counts (sd1 sd2 : list (string * Z)) :
  sd1.*2 = sd2.*2 ->
  outcome (report sd1) = outcome (report sd2) /\
  length (stdout (report sd1)) = length (stdout (report sd2)) /\
  head (stdout (report sd1)) = head (stdout (report sd2)).
Proof.
  intros E. pose proof (counts_sum_counts sd1 sd2 E) as Hsum.
  destruct sd1 as [|e1 l1], sd2 as [|e2 l2]; try done.
  rewrite !report_cons. cbn zeta. cbn [outcome stdout head length].
  rewrite Hsum. destruct (top10_counts (e1 :: l1) (e2 :: l2) (counts_sum (e2 :: l2)) E)
    as [-> Hlen].
  split; [done|]. split; [|done].
  rewrite !List.length_app. cbn [length]. rewrite Hlen.
  rewrite (keys_with_count_counts e1.2 (e1 :: l1) (e2 :: l2) E).
  rewrite !fmap_cons in E. injection E as -> _. done.
Qed.

(** X8: the hash order of the dict shows in the output only through the
    order of tied keys: two dicts that differ in the order of [items()]
    give runs that end the same way, print the same number of lines and
    the same total, and list the same most-common keys up to order.
    Which of several tied keys the top-10% section lists is not
    determined. *)
Theorem main_any_items_order {D1 D2 : Type} {dict1 : PyDict D1} {dict2 : PyDict D2}
    (result : string) :
  let r1 := main (D:=D1) result in
  let r2 := main (D:=D2) result in
  outcome r1 = outcome r2 /\
  length (stdout r1) = length (stdout r2) /\
  head (stdout r1) = head (stdout r2) /\
  (forall (d1 : D1) (d2 : D2),
      load (lines result) = Ok d1 -> load (lines result) = Ok d2 ->
      dict_map d1 = dict_map d2 /\
      stdout (most_common (rank d1)) ≡ₚ stdout (most_common (rank d2))).
Proof.
  intros r1 r2. subst r1 r2. rewrite !main_load.
  pose proof (load_records (D:=D1) (lines result)) as H1.
  pose proof (load_records (D:=D2) (lines result)) as H2.
  destruct (load (D:=D1) (lines result)) as [d1|e1],
           (load (D:=D2) (lines result)) as [d2|e2].
  - destruct H1 as (recs1 & Hr1 & Hm1), H2 as (recs2 & Hr2 & Hm2).
    assert (Hm : dict_map d1 = dict_map d2) by congruence.
    destruct (rank_any_order d1 d2 Hm) as [Hp Hc].
    destruct (report_counts (rank d1) (rank d2) Hc) as (Ho & Hlen & Hhd).
    do 3 (split; [done|]). intros d1' d2' [= <-] [= <-]. split; [done|].
    pose proof (rank_NoDup_keys d1) as Hn1. pose proof (rank_NoDup_keys d2) as Hn2.
    destruct (rank d1) as [|a1 l1] eqn:R1, (rank d2) as [|a2 l2] eqn:R2; try done.
    rewrite !most_common_cons. cbn [stdout].
    assert (a1.2 = a2.2) as -> by (rewrite !fmap_cons in Hc; by injection Hc).
    apply NoDup_Permutation; [by apply keys_with_count_NoDup..|].
    intros k. rewrite !elem_of_keys_with_count. by rewrite Hp.
  - destruct H1 as (? & ? & _). congruence.
  - destruct H2 as (? & ? & _). congruence.
  - assert (e1 = e2) as -> by congruence. cbn [outcome stdout]. do 3 (split; [done|]).
    intros ?? [=].
Qed.

Lemma main_any_items_order_witness :
  let result := "a b 2" +:+ LF +:+ "c d 2" +:+ LF +:+ "e f 1" +:+ LF in
  let data : gmap string Z := <["e f":=1]> (<["c d":=2]> {["a b":=2]}) in
  outcome (main (dict:=gmap_dict) result) = outcome (main (dict:=reversed_dict) result) /\
  stdout (most_common (rank (dict:=gmap_dict) data))
    ≡ₚ stdout (most_common (rank (dict:=reversed_dict) data)) /\
  stdout (most_common (rank (dict:=gmap_dict) data))
    <> stdout (most_common (rank (dict:=reversed_dict) data)).
Proof.
  intros result data.
  destruct (main_any_items_order (dict1:=gmap_dict) (dict2:=reversed_dict) result)
    as (Ho & _ & _ & Hmc).
  split; [exact Ho|].
  destruct (Hmc data data eq_refl eq_refl) as [_ Hp].
  split; [exact Hp|]. vm_compute. discriminate.
Defined.

(** ** Two runs on the same file *)

Lemma same_counts_no_ties (l1 l2 : list (string * Z)) :
  l1 ≡ₚ l2 -> l1.*2 = l2.*2 -> NoDup l1.*2 -> l1 = l2.
Proof.
  revert l2. induction l1 as [|e1 l1 IH]; intros [|e2 l2] Hp Hc Hnd; try done.
  rewrite !fmap_cons in Hc, Hnd. injection Hc as He Hc.
  apply NoDup_cons in Hnd as [Hnotin Hnd].
  assert (e1 = e2) as <-.
  { assert (Hin : e1 ∈ e2 :: l2) by (rewrite <- Hp; left).
    apply elem_of_cons in Hin as [?|Hin]; [done|]. exfalso. apply Hnotin.
    rewrite Hc. by apply list_elem_of_fmap_2. }
  f_equal. apply IH; [by apply (inj (cons e1)) | done | done].
Qed.

(** Two runs that enumerate the dict in different orders print tied keys
    in different orders: the output is not a function of the file alone. *)
Lemma main_output_depends_on_items_order :
  let result := "a b 2" +:+ LF +:+ "c d 2" +:+ LF in
  load (D:=gmap string Z) (lines result) = Ok (<["c d":=2]> {["a b":=2]}) /\
  stdout (main (dict:=gmap_dict) result)
    = [total_line 4; most_common_header; "a b"; "c d"; top10_header; "a b"] /\
  stdout (main (dict:=reversed_dict) result)
    = [total_line 4; most_common_header; "c d"; "a b"; top10_header; "c d"] /\
  main (dict:=gmap_dict) result <> main (dict:=reversed_dict) result.
Proof.
  intros result. split; [vm_compute; reflexivity|].
  split; [vm_compute; reflexivity|]. split; [vm_compute; reflexivity|].
  vm_compute. discriminate.
Qed.

(** C8, amended: two runs on the same file, each with its own order of
    [items()], end the same way and print the same number of lines and
    the same total line.  Their outputs are identical when both runs
    enumerate the dict in the same order, when no two keys of the table
    have the same count, and when the file is rejected; otherwise tied
    keys can come out in a different order. *)
Theorem main_deterministic {D1 D2 : Type} {dict1 : PyDict D1} {dict2 : PyDict D2}
    (result : string) :
  let run1 := main (D:=D1) result in
  let run2 := main (D:=D2) result in
  (outcome run1 = outcome run2 /\
   length (stdout run1) = length (stdout run2) /\
   head (stdout run1) = head (stdout run2)) /\
  (forall (d1 : D1) (d2 : D2),
      load (lines result) = Ok d1 -> load (lines result) = Ok d2 ->
      dict_items d1 = dict_items d2 -> run1 = run2) /\
  (forall d1 : D1,
      load (lines result) = Ok d1 ->
      NoDup (map_to_list (dict_map d1)).*2 -> run1 = run2) /\
  (forall e, load (D:=D1) (lines result) = Raise e -> run1 = run2).
Proof.
  intros run1 run2. subst run1 run2. rewrite !main_load.
  pose proof (load_records (D:=D1) (lines result)) as H1.
  pose proof (load_records (D:=D2) (lines result)) as H2.
  destruct (load (D:=D1) (lines result)) as [d1|e1],
           (load (D:=D2) (lines result)) as [d2|e2].
  - destruct H1 as (recs1 & Hr1 & Hm1), H2 as (recs2 & Hr2 & Hm2).
    assert (Hm : dict_map d1 = dict_map d2) by congruence.
    destruct (rank_any_order d1 d2 Hm) as [Hp Hc].
    split; [apply (report_counts _ _ Hc)|]. split; [|split].
    + intros d1' d2' [= <-] [= <-] Hitems. unfold rank. by rewrite Hitems.
    + intros d1' [= <-] Hnd. f_equal.
      apply same_counts_no_ties; [done | done |]. by rewrite (rank_perm d1).
    + intros e [=].
  - destruct H1 as (? & ? & _). congruence.
  - destruct H2 as (? & ? & _). congruence.
  - assert (e1 = e2) as -> by congruence. split; [done|].
    split; [|split]; [intros ?? [=] | intros ? [=] | done].
Qed.

Lemma main_deterministic_witness :
  main (dict:=gmap_dict) ("the cat 5" +:+ LF +:+ "cat sat 3" +:+ LF)
  = main (dict:=reversed_dict) ("the cat 5" +:+ LF +:+ "cat sat 3" +:+ LF).
Proof.
  destruct (main_deterministic (dict1:=gmap_dict) (dict2:=reversed_dict)
              ("the cat 5" +:+ LF +:+ "cat sat 3" +:+ LF)) as (_ & _ & Hno & _).
  apply (Hno (<["cat sat":=3]> {["the cat":=5]})); [reflexivity|].
  apply (bool_decide_unpack _). vm_compute. reflexivity.
Defined.

(** ** The size of the table and the order of the lines *)

Lemma records_length (f : list string) (recs : list (string * Z)) :
  records f = Ok recs -> length recs = length f.
Proof.
  revert recs. induction f as [|line f IH]; intros recs; cbn.
  { by intros [= <-]. }
  destruct (record_of line) as [r|]; [|done]. cbn.
  destruct (records f) as [recs'|]; [|done]. cbn.
  intros [= <-]. cbn. by rewrite (IH recs').
Qed.

Lemma dom_store_all (m : gmap string Z) (recs : list (string * Z)) :
  dom (store_all m recs) = list_to_set recs.*1 ∪ dom m.
Proof.
  revert m. induction recs as [|r recs IH]; intros m; cbn.
  { by rewrite (left_id_L ∅ (∪)). }
  unfold store_all in IH. rewrite IH, dom_insert_L.
  rewrite (assoc_L (∪)). f_equal. apply (comm_L (∪)).
Qed.

Lemma size_keys (l : list string) :
  (size (list_to_set l : gset string) <= length l)%nat /\
  (size (list_to_set l : gset string) = length l <-> NoDup l).
Proof.
  induction l as [|x l [IHle IHeq]]; cbn [list_to_set length].
  { rewrite size_empty. split; [lia|]. split; [constructor | done]. }
  rewrite NoDup_cons. destruct (decide (x ∈ l)) as [Hin|Hnotin].
  - rewrite (subseteq_union_1_L (C:=gset string) {[x]} (list_to_set l))
      by (by apply singleton_subseteq_l, elem_of_list_to_set).
    split; [lia|]. split; [lia | by intros [? _]].
  - rewrite size_union by (apply disjoint_singleton_l; by rewrite elem_of_list_to_set).
    rewrite size_singleton.
    split; [lia|]. rewrite <- IHeq. split; [intros; split; [done|lia] | intros [_ ?]; lia].
Qed.

Lemma last_write_NoDup (recs : list (string * Z)) (k : string) (c : Z) :
  NoDup recs.*1 -> (last_write k recs = Some c <-> (k, c) ∈ recs).
Proof.
  revert c. induction recs as [|[k' c'] recs IH]; intros c; cbn [last_write].
  { intros _. split; [done | by intros ?%elem_of_nil]. }
  rewrite fmap_cons. intros [Hr Hnd]%NoDup_cons.
  cbn [fst snd] in *.
  rewrite elem_of_cons. destruct (last_write k recs) as [c''|] eqn:Hlw.
  - split.
    + intros [= ->]. right. by apply IH.
    + intros [[= -> ->]|Hin]; [|by apply IH].
      exfalso. apply Hr. apply list_elem_of_fmap.
      exists (k', c''). split; [done|]. by apply IH.
  - destruct (decide (k' = k)) as [->|Hne].
    + split.
      * intros [= ->]. by left.
      * intros [[= ->]|Hin]; [done | by apply IH in Hin].
    + split; [done|]. intros [[= -> _]|Hin]; [done | by apply IH in Hin].
Qed.

Lemma store_all_perm (recs1 recs2 : list (string * Z)) :
  NoDup recs1.*1 -> recs1 ≡ₚ recs2 -> store_all ∅ recs1 = store_all ∅ recs2.
Proof.
  intros Hnd Hp.
  assert (Hnd2 : NoDup recs2.*1) by (by rewrite <- Hp).
  apply map_eq. intros k. apply option_eq. intros c.
  rewrite !lookup_store_all, !lookup_empty.
  transitivity (last_write k recs1 = Some c); [by destruct (last_write k recs1)|].
  transitivity (last_write k recs2 = Some c); [|by destruct (last_write k recs2)].
  by rewrite !last_write_NoDup, Hp.
Qed.

Lemma records_perm (f1 f2 : list string) (recs1 : list (string * Z)) :
  f1 ≡ₚ f2 -> records f1 = Ok recs1 ->
  exists recs2, records f2 = Ok recs2 /\ recs1 ≡ₚ recs2.
Proof.
  intros Hp. revert recs1.
  induction Hp as [|x l l' _ IH|x y l|l l' l'' _ IH1 _ IH2]; intros recs1; cbn.
  - intros [= <-]. by exists [].
  - destruct (record_of x) as [r|]; [|done]. cbn.
    destruct (records l) as [recs|]; [|done]. cbn. intros [= <-].
    destruct (IH recs eq_refl) as (recs2 & -> & Hp2). cbn.
    exists (r :: recs2). split; [done | by constructor].
  - destruct (record_of y) as [ry|]; [|done]. cbn.
    destruct (record_of x) as [rx|]; [|done]. cbn.
    destruct (records l) as [recs|]; [|done]. cbn. intros [= <-].
    exists (rx :: ry :: recs). split; [done | apply perm_swap].
  - intros H1. destruct (IH1 recs1 H1) as (recs2 & H2 & Hp12).
    destruct (IH2 recs2 H2) as (recs3 & H3 & Hp23).
    exists recs3. split; [done | by etrans].
Qed.

Lemma table_size_keys {D : Type} {dict : PyDict D} (f : list string) (data : D) :
  load f = Ok data ->
  exists recs,
    records f = Ok recs /\ dict_map data = store_all ∅ recs /\
    dom (dict_map data) = list_to_set recs.*1 /\
    (length (rank data) <= length f)%nat /\
    (length (rank data) = length f <-> NoDup recs.*1).
Proof.
  intros Hl. pose proof (load_records (D:=D) f) as Hr. rewrite Hl in Hr.
  destruct Hr as (recs & Hrecs & Hm). exists recs. split; [done|]. split; [done|].
  assert (Hdom : dom (dict_map data) = list_to_set recs.*1).
  { by rewrite Hm, dom_store_all, dom_empty_L, (right_id_L ∅ (∪)). }
  split; [done|].
  rewrite rank_length, <- size_dom, Hdom, <- (records_length f recs Hrecs).
  rewrite <- (length_fmap fst recs). apply size_keys.
Qed.

(** X9: the table has one entry for each distinct key of the file, so never
    more entries than the file has lines, and as many exactly when no
    key is written twice. *)
Theorem table_size {D : Type} {dict : PyDict D} (f : list string) (data : D) :
  load f = Ok data ->
  exists recs,
    records f = Ok recs /\
    dom (dict_map data) = list_to_set recs.*1 /\
    (length (rank data) <= length f)%nat /\
    (length (rank data) = length f <-> NoDup recs.*1).
Proof.
  intros Hl. destruct (table_size_keys f data Hl) as (recs & Hr & _ & Hrest).
  by exists recs.
Qed.

Lemma table_size_witness :
  let f := ["a b 3" +:+ LF; "c d 2" +:+ LF; "a b 5" +:+ LF] in
  exists data : gmap string Z,
    load f = Ok data /\ (length (rank data) <= length f)%nat.
Proof.
  intros f. exists (<["a b":=5]> (<["c d":=2]> (<["a b":=3]> ∅))).
  split; [reflexivity|].
  destruct (table_size (D:=gmap string Z) f
              (<["a b":=5]> (<["c d":=2]> (<["a b":=3]> ∅))) eq_refl)
    as (recs & _ & _ & Hle & _).
  exact Hle.
Defined.

(** X10: when no key is written twice, the order of the lines does not
    matter: a file with the same lines in another order gives the same
    table, hence the same total, the same number of output lines and the
    same end of the run. *)
Theorem line_order_irrelevant {D : Type} {dict : PyDict D}
    (result1 result2 : string) (d1 : D) :
  load (lines result1) = Ok d1 ->
  size (dict_map d1) = length (lines result1) ->
  lines result1 ≡ₚ lines result2 ->
  exists d2 : D,
    load (lines result2) = Ok d2 /\
    dict_map d2 = dict_map d1 /\
    outcome (main (D:=D) result2) = outcome (main (D:=D) result1) /\
    head (stdout (main (D:=D) result2)) = head (stdout (main (D:=D) result1)) /\
    length (stdout (main (D:=D) result2)) = length (stdout (main (D:=D) result1)).
Proof.
  intros Hl Hsize Hp.
  destruct (table_size_keys _ d1 Hl) as (recs1 & Hr1 & Hm1 & _ & _ & Hnd).
  rewrite rank_length in Hnd. apply Hnd in Hsize as Hnd1. clear Hnd.
  destruct (records_perm _ _ recs1 Hp Hr1) as (recs2 & Hr2 & Hp12).
  pose proof (load_records (D:=D) (lines result2)) as H2.
  destruct (load (D:=D) (lines result2)) as [d2|e] eqn:Hl2; [|congruence].
  destruct H2 as (recs2' & Hr2' & Hm2).
  assert (recs2' = recs2) as -> by congruence.
  assert (Hm : dict_map d2 = dict_map d1).
  { rewrite Hm1, Hm2. symmetry. by apply store_all_perm. }
  exists d2. split; [done|]. split; [done|].
  rewrite !main_load, Hl, Hl2.
  destruct (rank_any_order d2 d1 Hm) as [_ Hc].
  destruct (report_counts _ _ Hc) as (Ho & Hlen & Hhd). by repeat split.
Qed.

Lemma line_order_irrelevant_witness :
  exists d2 : gmap string Z,
    load (lines ("c d 2" +:+ LF +:+ "a b 1" +:+ LF)) = Ok d2 /\
    d2 = <["c d":=2]> {["a b":=1]}.
Proof.
  destruct (line_order_irrelevant (D:=gmap string Z)
              ("a b 1" +:+ LF +:+ "c d 2" +:+ LF) ("c d 2" +:+ LF +:+ "a b 1" +:+ LF)
              (<["c d":=2]> {["a b":=1]}))
    as (d2 & Hl2 & Hm & _).
  - reflexivity.
  - vm_compute. reflexivity.
  - apply perm_swap.
  - exists d2. split; [exact Hl2 | exact Hm].
Defined.

(** X11: counts are stored, not added up: a file that ends in a newline,
    followed by a copy of itself, gives the table of the file read once,
    so the same total, the same number of output lines and the same end
    of the run.  (Without the final newline the last line of the first
    copy and the first line of the second would be one line.) *)
Theorem file_read_twice {D : Type} {dict : PyDict D} (s : string) (d : D) :
  load (lines (s +:+ LF)) = Ok d ->
  let twice := s +:+ LF +:+ (s +:+ LF) in
  exists d' : D,
    load (lines twice) = Ok d' /\
    dict_map d' = dict_map d /\
    outcome (main (D:=D) twice) = outcome (main (D:=D) (s +:+ LF)) /\
    head (stdout (main (D:=D) twice)) = head (stdout (main (D:=D) (s +:+ LF))) /\
    length (stdout (main (D:=D) twice)) = length (stdout (main (D:=D) (s +:+ LF))).
Proof.
  intros Hl twice. subst twice.
  destruct (load_concat_map s (s +:+ LF) d d Hl Hl) as (d' & Hl' & Hm).
  rewrite (idemp_L (∪)) in Hm.
  exists d'. split; [done|]. split; [done|].
  rewrite !main_load, Hl, Hl'.
  destruct (rank_any_order d' d Hm) as [_ Hc].
  destruct (report_counts _ _ Hc) as (Ho & Hlen & Hhd). by repeat split.
Qed.

Lemma file_read_twice_witness :
  exists d' : gmap string Z,
    load (lines ("a b 3" +:+ LF +:+ ("a b 3" +:+ LF))) = Ok d' /\
    d' = {["a b" := 3]}.
Proof.
  destruct (file_read_twice (D:=gmap string Z) "a b 3" {["a b" := 3]} eq_refl)
    as (d' & Hl & Hm & _).
  exists d'. split; [exact Hl | exact Hm].
Defined.

(** ** The lines of the file *)

Lemma no_newline_snoc (cur : string) (c : ascii) :
  no_newline cur -> c <> "010"%char -> no_newline (snoc cur c).
Proof.
  unfold snoc. induction cur as [|a cur IH]; append_norm; cbn; intuition.
Qed.

Lemma lines_from_join (cur s : string) : join (lines_from cur s) = cur +:+ s.
Proof.
  revert cur. induction s as [|c s IH]; intros cur; cbn [lines_from].
  - destruct (decide (cur = "")) as [->|]; cbn [join]; [done|].
    by rewrite append_nil_r.
  - destruct (decide (c = "010"%char)); cbn [join].
    + by rewrite IH, append_nil_l, snoc_append.
    + by rewrite IH, snoc_append.
Qed.

Lemma append_assoc_str (a b c : string) : (a +:+ b) +:+ c = a +:+ b +:+ c.
Proof. induction a as [|x a IH]; append_norm; [done | by rewrite IH]. Qed.

Lemma well_cut_cons (l : string) (f : list string) :
  is_full_line l -> well_cut f -> well_cut (l :: f).
Proof. intros Hl Hf. destruct f; cbn [well_cut]; [by left | done]. Qed.

Lemma lines_from_well_cut (cur s : string) :
  no_newline cur -> well_cut (lines_from cur s).
Proof.
  revert cur. induction s as [|c s IH]; intros cur Hcur; cbn [lines_from].
  - destruct (decide (cur = "")); [done|]. cbn [well_cut]. by right.
  - destruct (decide (c = "010"%char)) as [->|Hc].
    + apply well_cut_cons; [by exists cur | by apply IH].
    + by apply IH, no_newline_snoc.
Qed.

Lemma lines_from_full (cur body rest : string) :
  no_newline body ->
  lines_from cur (body +:+ LF +:+ rest) = (cur +:+ body +:+ LF) :: lines rest.
Proof.
  revert cur. induction body as [|c body IH]; intros cur Hb.
  - unfold LF. append_norm. cbn [lines_from]. by rewrite decide_True.
  - destruct Hb as [Hc Hb]. append_norm. cbn [lines_from].
    rewrite decide_False by done. rewrite (IH _ Hb). by rewrite snoc_append.
Qed.

Lemma lines_from_last (cur body : string) :
  no_newline body -> cur +:+ body <> "" -> lines_from cur body = [cur +:+ body].
Proof.
  revert cur. induction body as [|c body IH]; intros cur Hb Hne.
  - rewrite append_nil_r in *. cbn [lines_from]. by rewrite decide_False.
  - destruct Hb as [Hc Hb]. cbn [lines_from]. rewrite decide_False by done.
    rewrite (IH _ Hb); by rewrite snoc_append.
Qed.

Lemma lines_join (f : list string) : well_cut f -> lines (join f) = f.
Proof.
  induction f as [|l f IH]; [done|]. cbn [well_cut join]. destruct f as [|l' f'].
  - cbn [join]. rewrite append_nil_r. unfold lines.
    intros [(body & Hb & ->)|[Hne Hn]].
    + change (body +:+ LF) with (body +:+ LF +:+ "") at 1.
      by rewrite (lines_from_full "" body "" Hb).
    + by rewrite (lines_from_last "" l Hn).
  - intros [(body & Hb & ->) Hf]. rewrite append_assoc_str. unfold lines.
    rewrite (lines_from_full "" body _ Hb), append_nil_l. f_equal. by apply IH.
Qed.

(** X12: [for line in f] cuts the file after every newline and nowhere
    else, and loses nothing: the lines put together are the file; every
    line but the last is a run of bytes without newline followed by its
    newline, and the last is such a line or a non-empty run without
    newline; no other list of strings has these two properties. *)
Theorem lines_lossless (result : string) :
  join (lines result) = result /\
  well_cut (lines result) /\
  forall f : list string, join f = result -> well_cut f -> f = lines result.
Proof.
  split; [apply lines_from_join|]. split; [by apply lines_from_well_cut|].
  intros f <- Hf. symmetry. by apply lines_join.
Qed.

(** ** The total of a file without repeated keys *)

Lemma store_all_to_list (recs : list (string * Z)) :
  NoDup recs.*1 -> map_to_list (store_all ∅ recs) ≡ₚ recs.
Proof.
  intros Hnd. apply NoDup_Permutation.
  - apply NoDup_map_to_list.
  - by apply (NoDup_fmap_1 fst).
  - intros [k c]. rewrite elem_of_map_to_list, lookup_store_all, lookup_empty.
    rewrite <- (last_write_NoDup recs k c Hnd). by destruct (last_write k recs).
Qed.

(** X13: when every line writes a key of its own, the ranked sequence holds
    the records of the lines, reordered, and the total that is printed is
    the sum of the counts of all the lines. *)
Theorem total_is_sum_of_lines {D : Type} {dict : PyDict D}
    (result : string) (data : D) :
  load (lines result) = Ok data ->
  size (dict_map data) = length (lines result) ->
  exists recs rest,
    records (lines result) = Ok recs /\
    rank data ≡ₚ recs /\
    stdout (main (D:=D) result) = total_line (counts_sum recs) :: rest.
Proof.
  intros Hl Hsize.
  destruct (table_size_keys (lines result) data Hl) as (recs & Hr & Hm & _ & _ & Hnd).
  exists recs. destruct (main_total_line result data Hl) as [rest Hout].
  exists rest. split; [done|].
  assert (Hp : rank data ≡ₚ recs).
  { rewrite rank_perm, Hm. apply store_all_to_list, Hnd.
    by rewrite rank_length. }
  split; [done|]. rewrite Hout, <- rank_sum. by rewrite (counts_sum_perm _ _ Hp).
Qed.

Lemma total_is_sum_of_lines_witness :
  exists rest,
    stdout (main (D:=gmap string Z) ("a b 4" +:+ LF +:+ "c d -1" +:+ LF))
    = total_line (4 + (-1 + 0)) :: rest.
Proof.
  destruct (total_is_sum_of_lines (D:=gmap string Z)
              ("a b 4" +:+ LF +:+ "c d -1" +:+ LF) (<["c d":=-1]> {["a b":=4]}))
    as (recs & rest & Hr & _ & Hout).
  - reflexivity.
  - vm_compute. reflexivity.
  - exists rest. injection Hr as <-. exact Hout.
Defined.

(** ** How a run can end *)

Module ConvertFacts.
Import PyFloat Double DoubleFacts.

Lemma binary_round_finite (sx : bool) (p : positive) :
  Zpos p < 2 ^ 1023 ->
  exists m e, binary_round prec emax sx p 0 = S754_finite sx m e.
Proof.
  intros Hp. pose proof (digits2_pos_bounds p) as [Hlo Hhi].
  set (d := Zpos (digits2_pos p)) in *.
  assert (Hd1 : 1 <= d) by (unfold d; lia).
  assert (Hd : d <= 1023).
  { destruct (Z.le_gt_cases d 1023); [done|].
    assert (2 ^ 1023 <= 2 ^ (d - 1)) by (apply Z.pow_le_mono_r; lia). lia. }
  destruct (Z.le_gt_cases d 53) as [Hsmall|Hlong].
  - destruct (binary_round_exact sx p 0) as (m' & -> & _).
    { left. rewrite fexp_double. fold d. lia. }
    { rewrite fexp_double. fold d. lia. }
    { lia. }
    by eexists _, _.
  - unfold binary_round.
    destruct (shl_align_eq p 0 (fexp prec emax (Zpos (digits2_pos p) + 0)))
      as (mz & -> & Hmz).
    fold d in Hmz. rewrite fexp_double in Hmz.
    replace (Z.min 0 (Z.max (d + 0 - 53) (-1074))) with 0 in Hmz by lia.
    rewrite Z.sub_diag, Z.mul_1_r in Hmz. injection Hmz as ->.
    fold d. rewrite fexp_double.
    replace (Z.min 0 (Z.max (d + 0 - 53) (-1074))) with 0 by lia.
    destruct (binary_round_aux_long sx p 0) as (m' & e' & -> & _);
      fold d; [lia|lia|lia|].
    by eexists _, _.
Qed.

Lemma of_int_converts (n : Z) : float_safe n -> exists x, of_int n = Ok x.
Proof.
  unfold float_safe, of_int. intros Hn. destruct n as [|p|p]; cbn [binary_normalize].
  - by eexists.
  - destruct (binary_round_finite false p) as (m & e & ->); [lia|]. by eexists.
  - destruct (binary_round_finite true p) as (m & e & ->); [lia|]. by eexists.
Qed.

Lemma of_int_raises (n : Z) (e : exn) : of_int n = Raise e -> e = OverflowError.
Proof.
  unfold of_int. destruct (binary_normalize prec emax n 0 false); intros [=]; done.
Qed.

End ConvertFacts.

Lemma top10_loop_outcome (sd : list (string * Z)) (total : spec_float) :
  (exists t, outcome (top10_loop sd total) = Ok t) \/
  (outcome (top10_loop sd total) = Raise OverflowError /\
   Exists (fun e => ~ float_safe e.2) sd).
Proof.
  revert total. induction sd as [|e l IH]; intros total.
  { left. by eexists. }
  rewrite top10_loop_cons. destruct (PyFloat.of_int e.2) as [c|err] eqn:Hc.
  - cbn zeta. destruct (PyFloat.ltb0 _); [left; by eexists|]. cbn [outcome].
    destruct (IH (PyFloat.sub total c)) as [?|[? ?]]; [by left|right].
    split; [done | by apply Exists_cons_tl].
  - right. rewrite (ConvertFacts.of_int_raises _ _ Hc). split; [done|].
    apply Exists_cons_hd. intros Hsafe.
    destruct (ConvertFacts.of_int_converts _ Hsafe) as [x Hx]. congruence.
Qed.

Lemma top10_outcome (sd : list (string * Z)) (num : Z) :
  outcome (top10 sd num) = Ok tt \/
  (outcome (top10 sd num) = Raise OverflowError /\
   (~ float_safe num \/ Exists (fun e => ~ float_safe e.2) sd)).
Proof.
  destruct (PyFloat.of_int num) as [x|err] eqn:Hx.
  - rewrite (top10_converted sd num x Hx). cbn zeta. cbn [outcome].
    destruct (top10_loop_outcome sd (PyFloat.mul x PyFloat.one_tenth))
      as [[t ->]|[-> ?]]; [by left | right; by split; [|right]].
  - rewrite (top10_overflow sd num err Hx). right.
    rewrite (ConvertFacts.of_int_raises _ _ Hx). split; [done|]. left.
    intros Hsafe. destruct (ConvertFacts.of_int_converts _ Hsafe) as [y Hy]. congruence.
Qed.

Lemma top10_ok_nonempty (e : string * Z) (l : list (string * Z)) (num : Z) :
  outcome (top10 (e :: l) num) = Ok tt -> stdout (top10 (e :: l) num) <> [].
Proof.
  destruct (PyFloat.of_int num) as [x|err] eqn:Hx.
  - rewrite (top10_converted _ num x Hx). cbn zeta. cbn [outcome stdout].
    rewrite top10_loop_cons. destruct (PyFloat.of_int e.2); [|done].
    cbn zeta. by destruct (PyFloat.ltb0 _).
  - by rewrite (top10_overflow _ num err Hx).
Qed.

Lemma load_raises {D : Type} {dict : PyDict D} (f : list string) (e : exn) :
  load (D:=D) f = Raise e ->
  (e = IndexError /\ Exists (fun l => (length (split l) < 3)%nat) f) \/
  (e = ValueError /\
   Exists (fun l => exists t2, split l !! 2%nat = Some t2 /\ ~ parses t2) f).
Proof.
  intros Hl. pose proof (load_records (D:=D) f) as Hr. rewrite Hl in Hr.
  destruct (records_cases f) as [(recs & Hrecs & _)|(pre & l & post & -> & _ & Hbad & Hrecs)];
    [congruence|].
  assert (e = line_error l) as -> by congruence.
  unfold line_error. destruct (Nat.ltb_spec (length (split l)) 3) as [Hlt|Hge].
  - left. split; [done|]. apply Exists_app. right. by constructor.
  - right. split; [done|]. apply Exists_app. right. constructor.
    destruct Hbad as [?|?]; [lia | done].
Qed.

(** X14: the ways a run can end, and what has been printed by then.
    [ValueError] and [IndexError] on a line come before any output;
    [IndexError] after two lines of output is the empty file;
    [OverflowError] comes only in the top-10% section, after its header,
    and only when a count or the total has a magnitude of [2^1023] or
    more; a run that ends normally has printed the total, and at least
    one key in each of the two sections. *)
Theorem main_outcomes {D : Type} {dict : PyDict D} (result : string) :
  let out := stdout (main (D:=D) result) in
  match outcome (main (D:=D) result) with
  | Raise ValueError =>
      out = [] /\
      Exists (fun l => exists t2, split l !! 2%nat = Some t2 /\ ~ parses t2)
             (lines result)
  | Raise IndexError =>
      (out = [] /\ Exists (fun l => (length (split l) < 3)%nat) (lines result)) \/
      (out = [total_line 0; most_common_header] /\ result = "")
  | Raise OverflowError =>
      exists (data : D) (mc t10 : list string),
        load (lines result) = Ok data /\
        out = total_line (table_sum (dict_map data)) :: most_common_header
                :: mc ++ top10_header :: t10 /\
        mc <> [] /\
        (~ float_safe (table_sum (dict_map data)) \/
         exists k c, dict_map data !! k = Some c /\ ~ float_safe c)
  | Ok _ =>
      exists (data : D) (mc t10 : list string),
        load (lines result) = Ok data /\
        out = total_line (table_sum (dict_map data)) :: most_common_header
                :: mc ++ top10_header :: t10 /\
        mc <> [] /\ t10 <> []
  end.
Proof.
  intros out. subst out. rewrite main_load.
  destruct (load (lines result)) as [data|e] eqn:Hl.
  2:{ cbn [outcome stdout].
      destruct (load_raises _ _ Hl) as [[-> ?]|[-> ?]]; [by left | done]. }
  pose proof (empty_ranked_empty_file result data Hl) as Hempty.
  pose proof (rank_sum data) as Hsum.
  pose proof (elem_of_rank data) as Hin.
  destruct (rank data) as [|e l].
  { rewrite report_nil. cbn [outcome stdout]. right. split; [done | by apply Hempty]. }
  rewrite report_cons. cbn zeta. cbn [outcome stdout]. rewrite Hsum.
  assert (Hmc : keys_with_count e.2 (e :: l) <> []).
  { unfold keys_with_count. rewrite filter_cons, decide_True by done. done. }
  destruct (top10_outcome (e :: l) (table_sum (dict_map data))) as [Hok|[Hov Hwhy]].
  - rewrite Hok. exists data, (keys_with_count e.2 (e :: l)), (stdout (top10 (e :: l) (table_sum (dict_map data)))).
    split; [done|]. split; [done|]. split; [done|].
    by apply top10_ok_nonempty.
  - rewrite Hov. exists data, (keys_with_count e.2 (e :: l)), (stdout (top10 (e :: l) (table_sum (dict_map data)))).
    split; [done|]. split; [done|]. split; [done|].
    destruct Hwhy as [?|Hex]; [by left | right].
    apply Exists_exists in Hex as ([k c] & Hkc & Hc).
    exists k, c. split; [by apply Hin | done].
Qed.

Lemma report_ok (sd : list (string * Z)) :
  sd <> [] -> Forall (fun e => float_safe e.2) sd -> float_safe (counts_sum sd) ->
  outcome (report sd) = Ok tt.
Proof.
  intros Hne Hall Hsum. destruct sd as [|e l]; [done|].
  rewrite report_cons. cbn zeta. cbn [outcome].
  destruct (top10_outcome (e :: l) (counts_sum (e :: l))) as [Hok|[_ [Hbad|Hbad]]];
    [done|done|].
  apply Exists_exists in Hbad as (x & Hx & Hbad).
  rewrite Forall_forall in Hall. by destruct (Hbad (Hall x Hx)).
Qed.

(** X15: a run on a non-empty file that [load] accepts ends normally, with
    both sections printed, unless a count or the total has a magnitude of
    [2^1023] or more: nothing after [load] can fail on ordinary
    counts. *)
Theorem main_ends_normally {D : Type} {dict : PyDict D}
    (result : string) (data : D) :
  load (lines result) = Ok data -> result <> "" ->
  (forall k c, dict_map data !! k = Some c -> float_safe c) ->
  float_safe (table_sum (dict_map data)) ->
  outcome (main (D:=D) result) = Ok tt.
Proof.
  intros Hl Hne Hall Hsum. rewrite main_load, Hl.
  apply report_ok.
  - intros Hr. apply Hne. by apply (empty_ranked_empty_file result data).
  - apply Forall_forall. intros [k c] Hin. apply (Hall k c). by apply elem_of_rank.
  - by rewrite rank_sum.
Qed.

Lemma main_ends_normally_witness :
  outcome (main (D:=gmap string Z) ("the cat -5" +:+ LF +:+ "cat sat 3" +:+ LF))
  = Ok tt.
Proof.
  apply (main_ends_normally (D:=gmap string Z)
           ("the cat -5" +:+ LF +:+ "cat sat 3" +:+ LF)
           (<["cat sat":=3]> {["the cat" := -5]})).
  - reflexivity.
  - discriminate.
  - intros k c Hk. unfold float_safe.
    assert (Hc : c = -5 \/ c = 3).
    { cbn [dict_map gmap_dict] in Hk.
      apply lookup_insert_Some in Hk as [[_ <-]|[_ Hk]]; [by right|].
      apply lookup_singleton_Some in Hk as [_ <-]. by left. }
    destruct Hc as [-> | ->]; reflexivity.
  - unfold float_safe.
    replace (table_sum _) with (-2) by (vm_compute; reflexivity). reflexivity.
Defined.

(** ** The length of the top-10% section *)

Lemma counts_sum_take_drop (k : nat) (l : list (string * Z)) :
  counts_sum (take k l) + counts_sum (drop k l) = counts_sum l.
Proof. by rewrite <- counts_sum_app, take_drop. Qed.

Lemma counts_sum_le_bound (l : list (string * Z)) (m : Z) :
  Forall (fun e => e.2 <= m) l -> counts_sum l <= Z.of_nat (length l) * m.
Proof. induction 1 as [|e l He _ IH]; cbn [counts_sum length]; lia. Qed.

(** In a descending sequence the first [k] entries hold at least their
    share [k / length] of the sum. *)
Lemma descending_prefix_share (l : list (string * Z)) (k : nat) :
  StronglySorted count_ge l -> (k <= length l)%nat ->
  Z.of_nat k * counts_sum l <= Z.of_nat (length l) * counts_sum (take k l).
Proof.
  intros Hs. revert k. induction Hs as [|x l Hl IH Hx]; intros k Hk.
  { cbn in *. replace k with 0%nat by lia. cbn. lia. }
  destruct k as [|k]; [cbn; lia|].
  cbn [length] in Hk. specialize (IH k ltac:(lia)).
  pose proof (counts_sum_take_drop k l) as Hsplit.
  assert (Hd : counts_sum (drop k l) <= Z.of_nat (length (drop k l)) * x.2).
  { apply counts_sum_le_bound. apply Forall_drop.
    eapply Forall_impl; [exact Hx|]. unfold count_ge. cbn. intros; lia. }
  rewrite length_drop in Hd. cbn [take counts_sum length].
  rewrite Nat2Z.inj_sub in Hd by lia. rewrite !Nat2Z.inj_succ.
  set (K := Z.of_nat k) in *. set (N := Z.of_nat (length l)) in *.
  set (S' := counts_sum l) in *. set (T' := counts_sum (take k l)) in *.
  set (D' := counts_sum (drop k l)) in *.
  lia.
Qed.

(** The top-10% section where the arithmetic is exact. *)
Lemma top10_exact (sd : list (string * Z)) :
  sd <> [] -> Forall (fun e => 0 <= e.2) sd -> counts_sum sd < 2 ^ 51 ->
  exists n : nat,
    (1 <= n <= length sd)%nat /\
    top10 sd (counts_sum sd) = IO (take n sd).*1 (Ok tt) /\
    (forall j, (1 <= j < n)%nat -> 10 * counts_sum (take j sd) <= counts_sum sd) /\
    (counts_sum sd < 10 * counts_sum (take n sd) \/
     (n = length sd /\ counts_sum sd = 0)).
Proof.
  intros Hne Hnn Hsum.
  destruct (DoubleFacts.counts_bounded sd (2 ^ 51) Hnn Hsum) as [Hall H0].
  destruct (DoubleFacts.mul_tenth (counts_sum sd)) as (x & Hx & Ht & Hs); [lia|].
  set (b := counts_sum sd / 10) in *.
  assert (Hb : 10 * b <= counts_sum sd < 10 * b + 10)
    by (unfold b; Z.div_mod_to_equations; lia).
  destruct (DoubleFacts.top10_loop_exact sd (PyFloat.mul x PyFloat.one_tenth) b)
    as (n & total' & Hn & Hout & Hpre & Hend); [done|lia|done| |].
  { eapply Forall_impl; [exact Hall|]. cbn. intros; lia. }
  exists n. rewrite (top10_converted sd _ x Hx). cbn zeta. rewrite Hout.
  cbn [stdout outcome].
  assert (Hn1 : (1 <= n)%nat).
  { destruct Hend as [[-> _]|[? _]]; [|done]. destruct sd; [done | cbn; lia]. }
  split; [lia|]. split; [done|]. split.
  - intros j Hj. specialize (Hpre j ltac:(lia)). lia.
  - destruct Hend as [[-> Hle]|[_ Hgt]]; [right; split; [done|lia] | left; lia].
Qed.

(** X16: because the ranked sequence is descending, the top-10% section is
    short: with non-negative counts and a positive total below [2^51]
    it prints at most a tenth of the table's keys, rounded down, plus
    one. *)
Theorem top10_at_most_tenth {D : Type} {dict : PyDict D} (data : D) :
  (forall k c, dict_map data !! k = Some c -> 0 <= c) ->
  0 < table_sum (dict_map data) < 2 ^ 51 ->
  exists n : nat,
    top10 (rank data) (counts_sum (rank data)) = IO (take n (rank data)).*1 (Ok tt) /\
    (1 <= n <= length (rank data) `div` 10 + 1)%nat.
Proof.
  intros Hnn [Hpos Hsum]. rewrite <- rank_sum in Hpos, Hsum.
  pose proof (rank_descending data) as Hs.
  assert (Hall : Forall (fun e => 0 <= e.2) (rank data)).
  { apply Forall_forall. intros [k c] Hin. apply (Hnn k c). by apply elem_of_rank. }
  set (sd := rank data) in *. clearbody sd.
  assert (Hne : sd <> []) by (intros ->; cbn in Hpos; lia).
  destruct (top10_exact sd Hne Hall Hsum) as (n & Hn & Hout & Hpre & _).
  exists n. split; [done|]. split; [lia|].
  destruct (Nat.le_gt_cases n (length sd `div` 10 + 1)) as [|Hgt]; [done|exfalso].
  set (k := (length sd `div` 10 + 1)%nat) in *.
  assert (Hk : (length sd < 10 * k)%nat).
  { pose proof (Nat.div_mod_eq (length sd) 10).
    pose proof (Nat.mod_upper_bound (length sd) 10). unfold k. lia. }
  specialize (Hpre k ltac:(lia)).
  pose proof (descending_prefix_share sd k Hs ltac:(lia)) as Hshare.
  set (A := counts_sum (take k sd)) in *. set (N := counts_sum sd) in *.
  assert (H1 : Z.of_nat (length sd) * (10 * A) <= Z.of_nat (length sd) * N)
    by (apply Z.mul_le_mono_nonneg_l; lia).
  assert (H2 : 1 * N <= (10 * Z.of_nat k - Z.of_nat (length sd)) * N)
    by (apply Z.mul_le_mono_nonneg_r; lia).
  lia.
Qed.

Lemma top10_at_most_tenth_witness :
  let data : gmap string Z :=
    <["the cat":=5]> (<["cat sat":=3]> {["sat mat":=3]}) in
  exists n : nat,
    top10 (rank data) (counts_sum (rank data)) = IO (take n (rank data)).*1 (Ok tt) /\
    (1 <= n <= 1)%nat.
Proof.
  intros data.
  destruct (top10_at_most_tenth data) as (n & Hout & Hn).
  - intros k c Hk. cbn [dict_map gmap_dict] in Hk. subst data.
    apply lookup_insert_Some in Hk as [[_ <-]|[_ Hk]]; [lia|].
    apply lookup_insert_Some in Hk as [[_ <-]|[_ Hk]]; [lia|].
    apply lookup_singleton_Some in Hk as [_ <-]. lia.
  - replace (table_sum (dict_map data)) with 11 by (vm_compute; reflexivity). lia.
  - exists n. split; [exact Hout|].
    replace (length (rank data)) with 3%nat in Hn by (vm_compute; reflexivity).
    exact Hn.
Defined.
